(** * School roster enrichment pipeline: a shallow embedding

    The development follows the two Python pipelines of the repository,
    [data_augmentation.py] (module [DataAugmentation] below) and
    [Data_Augumentation/data_scrap.py] (module [DataScrap] below).  Both
    share the duplicate check, the website search, the per-row orchestrator
    and the resumable run loop; they differ in [extract_info] and in
    [scrape_school_info].

    Modelling conventions.
    - A Python [str] is a Rocq [string] read as ASCII text: the character
      predicates ([isspace], cased letters, [\d], [\w]) are the ASCII parts
      of Python's, and characters above 127 are left alone by [lower] and
      [title].
    - The regular expressions of the source are written in a small regex
      syntax ([regex]) and run by a backtracking matcher with Python's
      priorities (leftmost start, ordered alternation, greedy or lazy
      repetition).  Every quantifier of the source applies to a single
      character class, which is what [Rep] offers.
    - The outside world (search API, HTTP fetch and HTML parsing, the
      phone number library, URL joining) is a [world] record of functions.
    - Exceptions are values ([result]); [print] and [time.sleep] calls
      and network requests are recorded as [event]s.
    - [KeyboardInterrupt] is an asynchronous signal and is not modelled:
      a run always iterates the whole roster. *)

From Stdlib Require Import Ascii String.
From stdpp Require Import base option gmap strings list fin_maps.

Local Open Scope string_scope.
Local Open Scope list_scope.

(** ** Python strings *)

Module PyStr.

Definition code (c : ascii) : nat := nat_of_ascii c.

Definition between (lo hi : nat) (c : ascii) : bool :=
  (lo <=? code c)%nat && (code c <=? hi)%nat.

(** [str.isspace] on ASCII: TAB..CR, FS..US and the space. *)
Definition is_space (c : ascii) : bool :=
  between 9 13 c || between 28 32 c.

Definition is_upper (c : ascii) : bool := between 65 90 c.
Definition is_lower (c : ascii) : bool := between 97 122 c.
Definition is_alpha (c : ascii) : bool := is_upper c || is_lower c.
Definition is_digit (c : ascii) : bool := between 48 57 c.
(** [\w] *)
Definition is_word (c : ascii) : bool :=
  is_alpha c || is_digit c || Ascii.eqb c "_".

Definition to_lower (c : ascii) : ascii :=
  if is_upper c then ascii_of_nat (code c + 32) else c.
Definition to_upper (c : ascii) : ascii :=
  if is_lower c then ascii_of_nat (code c - 32) else c.

Fixpoint map_chars (f : ascii -> ascii) (s : string) : string :=
  match s with
  | EmptyString => EmptyString
  | String c s' => String (f c) (map_chars f s')
  end.

(** [s.lower()] *)
Definition lower (s : string) : string := map_chars to_lower s.

(** [s.replace(a, b)] for single characters. *)
Definition replace_char (a b : ascii) (s : string) : string :=
  map_chars (fun c => if Ascii.eqb c a then b else c) s.

Fixpoint lstrip (s : string) : string :=
  match s with
  | EmptyString => EmptyString
  | String c s' => if is_space c then lstrip s' else s
  end.

Fixpoint rstrip (s : string) : string :=
  match s with
  | EmptyString => EmptyString
  | String c s' =>
      match rstrip s' with
      | EmptyString => if is_space c then EmptyString else String c EmptyString
      | r => String c r
      end
  end.

(** [s.strip()] *)
Definition strip (s : string) : string := rstrip (lstrip s).

(** Truth value of a string: [if s:]. *)
Definition truthy (s : string) : bool :=
  match s with EmptyString => false | _ => true end.

(** [s.startswith(p)] *)
Fixpoint startswith (p s : string) : bool :=
  match p, s with
  | EmptyString, _ => true
  | String a p', String b s' => Ascii.eqb a b && startswith p' s'
  | String _ _, EmptyString => false
  end.

(** [sub in s] *)
Fixpoint contains (sub s : string) : bool :=
  startswith sub s ||
  match s with
  | EmptyString => false
  | String _ s' => contains sub s'
  end.

(** [s.split(sep)] and [re.split("[..]", s)] for separators that are one
    character long: empty pieces are kept. *)
Fixpoint split_on (sep : ascii -> bool) (s : string) : list string :=
  match s with
  | EmptyString => [EmptyString]
  | String c s' =>
      if sep c then EmptyString :: split_on sep s'
      else match split_on sep s' with
           | w :: ws => String c w :: ws
           | [] => [String c EmptyString]
           end
  end.

(** [s.split()]: maximal runs of non-space characters. *)
Fixpoint split_ws_from (cur : option string) (s : string) : list string :=
  match s with
  | EmptyString => match cur with Some w => [w] | None => [] end
  | String c s' =>
      if is_space c
      then match cur with
           | Some w => w :: split_ws_from None s'
           | None => split_ws_from None s'
           end
      else split_ws_from
             (Some (match cur with
                    | Some w => w +:+ String c EmptyString
                    | None => String c EmptyString
                    end)) s'
  end.

Definition split_ws (s : string) : list string := split_ws_from None s.

(** [sep.join(l)] *)
Fixpoint join (sep : string) (l : list string) : string :=
  match l with
  | [] => EmptyString
  | [x] => x
  | x :: rest => x +:+ sep +:+ join sep rest
  end.

(** [s.title()]: a letter is upper-cased unless the previous character
    is a cased letter, in which case it is lower-cased. *)
Fixpoint title_from (prev_cased : bool) (s : string) : string :=
  match s with
  | EmptyString => EmptyString
  | String c s' =>
      String (if prev_cased then to_lower c else to_upper c)
             (title_from (is_alpha c) s')
  end.

Definition title (s : string) : string := title_from false s.

End PyStr.

Import PyStr.

(** ** A backtracking matcher for the regular expressions of the source *)

Module Re.

Inductive regex : Type :=
| Eps
| Chr (p : ascii -> bool)
| Seq (r1 r2 : regex)
| Alt (r1 r2 : regex)
| Rep (greedy : bool) (p : ascii -> bool) (lo : nat) (hi : option nat)
| WordB
| Group (r : regex).

(** A position in the subject: the character before it, its offset, the
    characters from it on, and the span of the capture group. *)
Record cursor : Type := Cursor {
  prev : option ascii;
  pos : nat;
  rest : list ascii;
  grp : option (nat * nat)
}.

Definition word_before (c : cursor) : bool :=
  match prev c with Some a => is_word a | None => false end.
Definition word_after (c : cursor) : bool :=
  match rest c with a :: _ => is_word a | [] => false end.

Definition may_take (hi : option nat) : bool :=
  match hi with Some O => false | _ => true end.

Section Matcher.
Context {A : Type}.

(** [p{lo,hi}], greedy or lazy, followed by the continuation [k]. *)
Fixpoint rep (greedy : bool) (p : ascii -> bool) (lo : nat) (hi : option nat)
    (k : cursor -> option A) (pv : option ascii) (ps : nat)
    (g : option (nat * nat)) (l : list ascii) {struct l} : option A :=
  match l with
  | [] => match lo with O => k (Cursor pv ps [] g) | S _ => None end
  | ch :: l' =>
      if p ch && may_take hi then
        match lo with
        | S lo' => rep greedy p lo' (Nat.pred <$> hi) k (Some ch) (S ps) g l'
        | O =>
            if greedy then
              match rep greedy p O (Nat.pred <$> hi) k (Some ch) (S ps) g l' with
              | Some a => Some a
              | None => k (Cursor pv ps l g)
              end
            else
              match k (Cursor pv ps l g) with
              | Some a => Some a
              | None => rep greedy p O (Nat.pred <$> hi) k (Some ch) (S ps) g l'
              end
        end
      else match lo with O => k (Cursor pv ps l g) | S _ => None end
  end.

Fixpoint rmatch (r : regex) (k : cursor -> option A) (c : cursor) : option A :=
  match r with
  | Eps => k c
  | Chr p =>
      match rest c with
      | ch :: l' => if p ch then k (Cursor (Some ch) (S (pos c)) l' (grp c)) else None
      | [] => None
      end
  | Seq r1 r2 => rmatch r1 (rmatch r2 k) c
  | Alt r1 r2 =>
      match rmatch r1 k c with
      | Some a => Some a
      | None => rmatch r2 k c
      end
  | Rep greedy p lo hi => rep greedy p lo hi k (prev c) (pos c) (grp c) (rest c)
  | WordB => if xorb (word_before c) (word_after c) then k c else None
  | Group r1 =>
      rmatch r1 (fun c' => k (Cursor (prev c') (pos c') (rest c')
                                    (Some (pos c, pos c')))) c
  end.

End Matcher.

(** The first match that starts at [c]: its end and its group. *)
Definition match_here (r : regex) (c : cursor) : option (nat * option (nat * nat)) :=
  rmatch r (fun c' => Some (pos c', grp c')) c.

(** [re.search]: the leftmost start that matches; (start, end, group). *)
Fixpoint search_from (r : regex) (pv : option ascii) (ps : nat) (l : list ascii)
    : option (nat * nat * option (nat * nat)) :=
  match match_here r (Cursor pv ps l None) with
  | Some (e, g) => Some (ps, e, g)
  | None =>
      match l with
      | [] => None
      | ch :: l' => search_from r (Some ch) (S ps) l'
      end
  end.

Definition search (r : regex) (s : string) : option (nat * nat * option (nat * nat)) :=
  search_from r None 0 (list_ascii_of_string s).

Definition found (r : regex) (s : string) : bool :=
  match search r s with Some _ => true | None => false end.

(** [m.group(1)] of [re.search(r, s)]. *)
Definition search_group (r : regex) (s : string) : option string :=
  match search r s with
  | Some (_, _, Some (a, b)) => Some (String.substring a (b - a) s)
  | _ => None
  end.

(** [re.sub(r, repl, s)] for a pattern with no empty match: [skip] counts
    the characters of the current match still to drop. *)
Fixpoint sub_from (r : regex) (repl : list ascii) (pv : option ascii) (skip : nat)
    (l : list ascii) : list ascii :=
  match l with
  | [] => []
  | ch :: l' =>
      match skip with
      | S n => sub_from r repl (Some ch) n l'
      | O =>
          match match_here r (Cursor pv 0 l None) with
          | Some (S n, _) => repl ++ sub_from r repl (Some ch) n l'
          | _ => ch :: sub_from r repl (Some ch) 0 l'
          end
      end
  end.

Definition sub (r : regex) (repl s : string) : string :=
  string_of_list_ascii
    (sub_from r (list_ascii_of_string repl) None 0 (list_ascii_of_string s)).

(** [re.findall(r, s)] for a pattern with no group and no empty match. *)
Fixpoint findall_from (r : regex) (pv : option ascii) (skip : nat)
    (l : list ascii) : list string :=
  match l with
  | [] => []
  | ch :: l' =>
      match skip with
      | S n => findall_from r (Some ch) n l'
      | O =>
          match match_here r (Cursor pv 0 l None) with
          | Some (S n, _) =>
              string_of_list_ascii (take (S n) l) :: findall_from r (Some ch) n l'
          | _ => findall_from r (Some ch) 0 l'
          end
      end
  end.

Definition findall (r : regex) (s : string) : list string :=
  findall_from r None 0 (list_ascii_of_string s).

(** Pattern builders. *)
Definition chr (a : ascii) : regex := Chr (Ascii.eqb a).
Definition chr_i (a : ascii) : regex :=
  Chr (fun x => Ascii.eqb (to_lower x) (to_lower a)).

(** A literal, as [re.escape] makes it; [lit_i] under [re.I]. *)
Fixpoint lit (s : string) : regex :=
  match s with
  | EmptyString => Eps
  | String a s' => Seq (chr a) (lit s')
  end.
Fixpoint lit_i (s : string) : regex :=
  match s with
  | EmptyString => Eps
  | String a s' => Seq (chr_i a) (lit_i s')
  end.

Definition star (p : ascii -> bool) : regex := Rep true p 0 None.
Definition plus (p : ascii -> bool) : regex := Rep true p 1 None.
Definition opt (p : ascii -> bool) : regex := Rep true p 0 (Some 1).
(** [.] without [re.S] *)
Definition dot (c : ascii) : bool := negb (Ascii.eqb c "010").

End Re.

Import Re.

(** ** Data model *)

(** A cell of the roster or of the JSON checkpoint: a Python [str], or
    any other object (a number, NaN, null), which is given by its [str()]
    rendering and has no [strip] method. *)
Inductive value : Type :=
| VStr (s : string)
| VOther (repr : string).

#[global] Instance value_eq_dec : EqDecision value.
Proof. solve_decision. Defined.

(** [str(v)] *)
Definition py_str (v : value) : string :=
  match v with VStr s => s | VOther r => r end.

(** A roster row ([dict(row_data)]) and an enriched record: column name
    to cell. *)
Abbreviation record := (gmap string value).

(** The partial extraction result, the dict
    [{"District": .., "Address": .., "Tel": .., "Email": ..}]. *)
Record page_info : Type := PageInfo {
  District : string;
  Address : string;
  Tel : string;
  Email : string
}.

Definition empty_info : page_info := PageInfo "" "" "" "".

(** The exceptions the orchestrator can see. *)
Inductive exn : Type :=
| KeyError (key : string)
| AttributeError.

Inductive result (A : Type) : Type :=
| Ret (a : A)
| Raise (e : exn).
Arguments Ret {A} a.
Arguments Raise {A} e.

(** One entry of the search response's ["organic"] list: its ["link"],
    when it has one. *)
Record organic_item : Type := Item { item_link : option string }.

(** What one [requests.post] of the search does inside the [try]:
    anything that raises there (transport error, non-2xx status, a body
    that is not the expected JSON), or a decoded body with its
    ["organic"] entry, when it has one. *)
Inductive search_response : Type :=
| SearchFailed
| SearchJson (organic : option (list organic_item)).

(** A parsed page: the text of the first [<p class="loc-icon">] (joined
    with ", "), the visible text of the whole document (joined with
    newlines; the strings of the location element are among its lines),
    and the [href] of every [<a href=..>]. *)
Record page : Type := Page {
  loc_icon : option string;
  page_text : string;
  hrefs : list string
}.

(** What [requests.get], [raise_for_status] and [BeautifulSoup] make of a
    URL: [requests.get] raises ([TransportError]); the response has a
    status for which [raise_for_status] raises, that is 400 to 599
    ([BadStatus]); the parser raises ([ParseFailure]); or, for a response
    of any other status, the parsed page ([Fetched]). *)
Inductive fetch_result : Type :=
| TransportError
| BadStatus (status : nat)
| ParseFailure
| Fetched (p : page).

(** The collaborators of the pipeline. *)
Record world : Type := World {
  (** the response to the [attempt]-th request of one search *)
  search_api : string -> nat -> search_response;
  (** [requests.get] followed by [BeautifulSoup] *)
  web : string -> fetch_result;
  (** [requests.compat.urljoin]; [None] when it raises [ValueError] *)
  urljoin : string -> string -> option string;
  (** the matches of [PhoneNumberMatcher(fragment, "IN")], each in
      international format *)
  phone_matches : string -> list string
}.

(** What the operator and the outside world observe. *)
Inductive event : Type :=
| SearchRequest (query : string) (attempt : nat)
| Sleep (seconds : nat)
| SaveJson (data : list record)
| LogTopSites (name : string) (websites : list string)
| LogSearchFailed (attempt : nat) (name : string)
| LogNoWebsites (name : string)
| LogSkipping (index total : nat) (name : string)
| LogProcessing (index total : nat) (name state : string)
| LogMerged (name : string) (email tel district address : bool)
| LogRowError (index : nat) (e : exn).

(** ** The duplicate check *)

(** [record.get(key, "").strip().lower() == x.strip().lower()] *)
Definition field_matches (r : record) (key x : string) : result bool :=
  match default (VStr "") (r !! key) with
  | VStr s => Ret (bool_decide (lower (strip s) = lower (strip x)))
  | VOther _ => Raise AttributeError
  end.

Fixpoint is_already_processed (processed_data : list record)
    (school_name state_ut : string) : result bool :=
  match processed_data with
  | [] => Ret false
  | r :: rest =>
      match field_matches r "School" school_name with
      | Raise e => Raise e
      | Ret false => is_already_processed rest school_name state_ut
      | Ret true =>
          match field_matches r "State/UT" state_ut with
          | Raise e => Raise e
          | Ret false => is_already_processed rest school_name state_ut
          | Ret true => Ret true
          end
      end
  end.

(** ** Website search *)

Definition blacklist : list string := ["indiastudychannel.com"].

(** The two conditions under which a link is appended. *)
Definition qualifies (link : string) : bool :=
  (truthy link && negb (existsb (fun bad => contains bad link) blacklist))
  && (startswith "http://" link || startswith "https://" link).

(** The loop over [result["organic"]], appending to [websites] and
    leaving once it holds five links. *)
Fixpoint collect_websites (items : list organic_item) (websites : list string)
    : list string :=
  match items with
  | [] => websites
  | item :: rest =>
      let link := default "" (item_link item) in
      let websites := if qualifies link then websites ++ [link] else websites in
      if (length websites =? 5)%nat then websites
      else collect_websites rest websites
  end.

(** The links one response yields. *)
Definition response_websites (resp : search_response) : list string :=
  match resp with
  | SearchFailed => []
  | SearchJson None => []
  | SearchJson (Some items) => collect_websites items []
  end.

Definition query_text (school_name state_ut : string) : string :=
  join " " (split_ws school_name) +:+ " " +:+ join " " (split_ws state_ut)
  +:+ " official website".

(** [for attempt in range(retries)], with [remaining] iterations left. *)
Fixpoint search_loop (w : world) (query name_clean : string)
    (retries remaining : nat) : list string * list event :=
  match remaining with
  | O => ([], [LogNoWebsites name_clean])
  | S remaining' =>
      let attempt := retries - remaining in
      let resp := search_api w query attempt in
      let websites := response_websites resp in
      if negb (bool_decide (websites = [])) then
        (websites, [SearchRequest query attempt; LogTopSites name_clean websites])
      else
        let failed :=
          match resp with
          | SearchFailed => [LogSearchFailed (attempt + 1) name_clean]
          | SearchJson _ => []
          end in
        let backoff := if (attempt <? retries - 1)%nat then [Sleep 2] else [] in
        let '(found, evs) := search_loop w query name_clean retries remaining' in
        (found, SearchRequest query attempt :: failed ++ backoff ++ evs)
  end.

Definition search_school_websites (w : world) (school_name state_ut : string)
    (retries : nat) : list string * list event :=
  search_loop w (query_text school_name state_ut)
    (join " " (split_ws school_name)) retries retries.

(** ** Field extraction: the parts both pipelines share *)

Definition nl : ascii := "010"%char.

(** A character class given by its members. *)
Definition one_of (chars : string) (c : ascii) : bool :=
  contains (String c EmptyString) chars.

(** [\b[A-Za-z0-9._%+-]+@[A-Za-z0-9.-]+\.[A-Z|a-z]{2,}\b] *)
Definition email_re : regex :=
  Seq WordB
    (Seq (plus (fun c => is_alpha c || is_digit c || one_of "._%+-" c))
      (Seq (chr "@")
        (Seq (plus (fun c => is_alpha c || is_digit c || one_of ".-" c))
          (Seq (chr ".")
            (Seq (Rep true (fun c => is_alpha c || one_of "|" c) 2 None)
              WordB))))).

Definition social (e : string) : bool :=
  existsb (fun d => contains d (lower e)) ["facebook.com"; "twitter.com"].

(** The first e-mail address that is not a social one. *)
Definition extract_email (text : string) : string :=
  default "" (List.find (fun e => negb (social e)) (findall email_re text)).

(** The loop over [re.split(r"[\/,]", text)]: the first fragment with a
    phone number match sets [Tel], and a set [Tel] ends the loop. *)
Fixpoint extract_tel (w : world) (fragments : list string) : string :=
  match fragments with
  | [] => ""
  | raw_number :: rest =>
      let tel := default "" (head (phone_matches w raw_number)) in
      if truthy tel then tel else extract_tel w rest
  end.

(** [[line.strip() for line in text.split("\n") if line.strip()]] *)
Definition text_lines (text : string) : list string :=
  List.filter truthy (map strip (split_on (Ascii.eqb nl) text)).

(** [r"\d{1,4}.*(" + re.escape(state_ut) + r")"] under [re.I] *)
Definition address_re (state_ut : string) : regex :=
  Seq (Rep true is_digit 1 (Some 4)) (Seq (star dot) (Group (lit_i state_ut))).

(** [state_ut and re.search(.., line, re.I)] *)
Definition is_address_line (state_ut line : string) : bool :=
  truthy state_ut && found (address_re state_ut) line.

(** [if not info[key] and val: info[key] = val], for one key. *)
Definition keep_first (old new : string) : string :=
  if negb (truthy old) && truthy new then new else old.

(** The loop [for key, val in new_info.items()] over the four keys. *)
Definition merge_missing (info new_info : page_info) : page_info :=
  {| District := keep_first (District info) (District new_info);
     Address := keep_first (Address info) (Address new_info);
     Tel := keep_first (Tel info) (Tel new_info);
     Email := keep_first (Email info) (Email new_info) |}.

(** [info.update(new_info)] where [new_info] carries all four keys:
    every field is replaced. *)
Definition dict_update (info new_info : page_info) : page_info :=
  {| District := District new_info;
     Address := Address new_info;
     Tel := Tel new_info;
     Email := Email new_info |}.

(** [any(k in page.lower() for k in ["contact", "about", "reach-us", "address"])] *)
Definition is_contact_link (href : string) : bool :=
  existsb (fun k => contains k (lower href))
    ["contact"; "about"; "reach-us"; "address"].

(** The URL a followed link is fetched from; [None] when [urljoin] raises. *)
Definition resolve (w : world) (url href : string) : option string :=
  if startswith "http" href then Some href else urljoin w url href.

(** ** [data_augmentation.py]: the richer district policy *)

Module DataAugmentation.

(** [\b(district|dist|dt\.?)\b] under [re.I] *)
Definition district_keyword : regex :=
  Seq WordB
    (Seq (Group (Alt (lit_i "district")
                  (Alt (lit_i "dist")
                       (Seq (lit_i "dt") (opt (Ascii.eqb "."))))))
         WordB).

(** [(?i)district[:\s-]*|opening of the new|reg|government of|india] *)
Definition boilerplate : regex :=
  Alt (Seq (lit_i "district") (star (fun c => one_of ":-" c || is_space c)))
    (Alt (lit_i "opening of the new")
      (Alt (lit_i "reg")
        (Alt (lit_i "government of") (lit_i "india")))).

(** [r"(.+?),?\s*" + re.escape(state_ut)] under [re.I] *)
Definition before_state_re (state_ut : string) : regex :=
  Seq (Group (Rep false dot 1 None))
    (Seq (opt (Ascii.eqb ","))
      (Seq (star is_space) (lit_i state_ut))).

(** The address loop: [address] is [info["Address"]]. *)
Fixpoint scan_addresses (state_ut : string) (lines : list string)
    (address : string) (address_candidates : list string)
    : string * list string :=
  match lines with
  | [] => (address, address_candidates)
  | line :: rest =>
      if is_address_line state_ut line then
        scan_addresses state_ut rest
          (if negb (truthy address) then line else address)
          (address_candidates ++ [line])
      else scan_addresses state_ut rest address address_candidates
  end.

(** The first line with a district keyword, or [""]. *)
Definition district_line (lines : list string) : string :=
  default "" (List.find (found district_keyword) lines).

(** The [if district: .. elif address_candidates: ..] block: the value
    of [info["District"]]. *)
Definition extract_district (state_ut : string) (lines address_candidates : list string)
    : string :=
  let district := district_line lines in
  if truthy district then
    let district := sub boilerplate "" district in
    let parts := List.filter truthy (map strip (split_on (Ascii.eqb ",") district)) in
    match last parts with
    | Some p => title p
    | None => ""
    end
  else
    match address_candidates with
    | addr_line :: _ =>
        match search_group (before_state_re state_ut) addr_line with
        | Some g =>
            title (strip (default "" (last (split_on (Ascii.eqb ",") g))))
        | None => ""
        end
    | [] => ""
    end.

Definition extract_info (w : world) (text state_ut : string) : page_info :=
  let lines := text_lines text in
  let '(address, address_candidates) := scan_addresses state_ut lines "" [] in
  {| District := extract_district state_ut lines address_candidates;
     Address := address;
     Tel := extract_tel w (split_on (one_of "/,") text);
     Email := extract_email text |}.

(** The loop over [soup.find_all("a", href=True)].  A subpage that
    cannot be fetched or parsed is skipped (the bare [except]); a
    [urljoin] that raises ends the scrape with what [info] holds (the
    outer [except]). *)
Fixpoint follow_links (w : world) (url state_ut : string) (links : list string)
    (info : page_info) : page_info :=
  match links with
  | [] => info
  | href :: rest =>
      if is_contact_link href then
        match resolve w url href with
        | None => info
        | Some target =>
            match web w target with
            | Fetched sub_page =>
                follow_links w url state_ut rest
                  (merge_missing info (extract_info w (page_text sub_page) state_ut))
            | _ => follow_links w url state_ut rest info
            end
        end
      else follow_links w url state_ut rest info
  end.

Definition scrape_school_info (w : world) (url state_ut : string) : page_info :=
  let info := empty_info in
  match web w url with
  | Fetched p =>
      let info :=
        match loc_icon p with
        | Some loc_text =>
            {| District := District info; Address := loc_text;
               Tel := Tel info; Email := Email info |}
        | None => info
        end in
      let info := dict_update info (extract_info w (page_text p) state_ut) in
      follow_links w url state_ut (hrefs p) info
  | _ => info
  end.

End DataAugmentation.

(** ** [Data_Augumentation/data_scrap.py]: the simple district policy *)

Module DataScrap.

(** [(?i)district[:\s-]*] *)
Definition district_word : regex :=
  Seq (lit_i "district") (star (fun c => one_of ":-" c || is_space c)).

(** The loop over the lines: [address] and [district] are
    [info["Address"]] and [info["District"]]. *)
Fixpoint scan_lines (state_ut : string) (lines : list string)
    (address district : string) : string * string :=
  match lines with
  | [] => (address, district)
  | line :: rest =>
      let address :=
        if negb (truthy address) && truthy state_ut
           && found (address_re state_ut) line
        then line else address in
      let district :=
        if negb (truthy district) && contains "district" (lower line)
           && (String.length line <? 100)%nat
        then title (strip (sub district_word "" line)) else district in
      scan_lines state_ut rest address district
  end.

Definition extract_info (w : world) (text state_ut : string) : page_info :=
  let '(address, district) := scan_lines state_ut (text_lines text) "" "" in
  {| District := district;
     Address := address;
     Tel := extract_tel w (split_on (one_of "/,") text);
     Email := extract_email text |}.

(** The three keys merged by [for key in ["Tel", "Email", "District"]]. *)
Definition merge_contacts (info new_info : page_info) : page_info :=
  {| District := keep_first (District info) (District new_info);
     Address := Address info;
     Tel := keep_first (Tel info) (Tel new_info);
     Email := keep_first (Email info) (Email new_info) |}.

(** [addresses.append(a)] when [a] is not empty. *)
Definition add_address (addresses : list string) (a : string) : list string :=
  if truthy a then addresses ++ [a] else addresses.

(** The loop over the links; [None] when [urljoin] raised, which skips
    the address merge below. *)
Fixpoint follow_links (w : world) (url state_ut : string) (links : list string)
    (info : page_info) (addresses : list string)
    : page_info * option (list string) :=
  match links with
  | [] => (info, Some addresses)
  | href :: rest =>
      if is_contact_link href then
        match resolve w url href with
        | None => (info, None)
        | Some target =>
            match web w target with
            | Fetched sub_page =>
                let new_info := extract_info w (page_text sub_page) state_ut in
                follow_links w url state_ut rest
                  (merge_contacts info new_info)
                  (add_address addresses (Address new_info))
            | _ => follow_links w url state_ut rest info addresses
            end
        end
      else follow_links w url state_ut rest info addresses
  end.

(** [re.sub(r"\s*\|\s*", ", ", addr)], then
    [re.sub(r"\s+", " ", addr).strip()] *)
Definition clean_address (addr : string) : string :=
  let addr := sub (Seq (star is_space) (Seq (chr "|") (star is_space))) ", " addr in
  strip (sub (plus is_space) " " addr).

(** The de-duplicating loop over [addresses]. *)
Fixpoint clean_addresses (addresses clean : list string) : list string :=
  match addresses with
  | [] => clean
  | addr :: rest =>
      let addr := clean_address addr in
      clean_addresses rest
        (if bool_decide (addr ∈ clean) then clean else clean ++ [addr])
  end.

Definition scrape_school_info (w : world) (url state_ut : string) : page_info :=
  let info := empty_info in
  match web w url with
  | Fetched p =>
      let addresses :=
        match loc_icon p with
        | Some loc_text => [loc_text]
        | None => []
        end in
      let page_info := extract_info w (page_text p) state_ut in
      let addresses := add_address addresses (Address page_info) in
      let info := merge_contacts info page_info in
      match follow_links w url state_ut (hrefs p) info addresses with
      | (info, Some addresses) =>
          {| District := District info;
             Address := join " | " (clean_addresses addresses []);
             Tel := Tel info; Email := Email info |}
      | (info, None) => info
      end
  | _ => info
  end.

End DataScrap.

(** ** The orchestrator and the resumable run, the same in both files *)

(** What one call of [process_school] leaves behind: whether it
    returned or raised, [self.processed_data], and what it printed,
    requested, saved and slept. *)
Record step : Type := Step {
  outcome : result unit;
  data : list record;
  trace : list event
}.

(** [record.update({"Website": "", "District": "", "Address": "",
    "Tel": "", "Email": ""})] *)
Definition blank_enrichment (r : record) : record :=
  <["Email" := VStr ""]>
    (<["Tel" := VStr ""]>
      (<["Address" := VStr ""]>
        (<["District" := VStr ""]>
          (<["Website" := VStr ""]> r)))).

(** [record.update(merged_info)] *)
Definition update_record (r : record) (info : page_info) : record :=
  <["Email" := VStr (Email info)]>
    (<["Tel" := VStr (Tel info)]>
      (<["Address" := VStr (Address info)]>
        (<["District" := VStr (District info)]> r))).

(** [str(row_data[key]).replace("\n", " ").strip()] *)
Definition clean_cell (v : value) : string :=
  strip (replace_char nl " " (py_str v)).

Section Orchestrator.

Variable scrape_school_info : world -> string -> string -> page_info.
Variable w : world.

(** The loop [for url in websites] with its inner merge. *)
Definition merge_sites (state_ut : string) (websites : list string) : page_info :=
  foldl (fun merged_info url =>
           merge_missing merged_info (scrape_school_info w url state_ut))
        empty_info websites.

Definition process_school (processed_data : list record) (row_data : record)
    (index total : nat) : step :=
  match row_data !! "School" with
  | None => Step (Raise (KeyError "School")) processed_data []
  | Some school =>
  match row_data !! "State/UT" with
  | None => Step (Raise (KeyError "State/UT")) processed_data []
  | Some state =>
      let school_name := clean_cell school in
      let state_ut := clean_cell state in
      match is_already_processed processed_data school_name state_ut with
      | Raise e => Step (Raise e) processed_data []
      | Ret true =>
          Step (Ret tt) processed_data [LogSkipping (index + 1) total school_name]
      | Ret false =>
          let r := blank_enrichment row_data in
          let '(websites, searched) :=
            search_school_websites w school_name state_ut 5 in
          let started := LogProcessing (index + 1) total school_name state_ut in
          match websites with
          | [] =>
              let processed_data := processed_data ++ [r] in
              Step (Ret tt) processed_data
                (started :: searched ++ [SaveJson processed_data])
          | first :: _ =>
              let r := <["Website" := VStr first]> r in
              let merged_info := merge_sites state_ut websites in
              let r := update_record r merged_info in
              let processed_data := processed_data ++ [r] in
              Step (Ret tt) processed_data
                (started :: searched ++
                 [LogMerged school_name (truthy (Email merged_info))
                    (truthy (Tel merged_info)) (truthy (District merged_info))
                    (truthy (Address merged_info));
                  SaveJson processed_data; Sleep 1])
          end
      end
  end
  end.

(** The loop [for index, row in df.iterrows()]: rows before
    [start_index] are passed over; an exception of a row is logged and
    the loop goes on.  The result is [self.processed_data] and, for each
    row handed to [process_school], its index and what that call did. *)
Fixpoint run_rows (start_index total index : nat) (rows : list record)
    (processed_data : list record) : list record * list (nat * list event) :=
  match rows with
  | [] => (processed_data, [])
  | row :: rest =>
      if (index <? start_index)%nat then
        run_rows start_index total (S index) rest processed_data
      else
        let st := process_school processed_data row index total in
        let failed :=
          match outcome st with
          | Raise e => [LogRowError index e]
          | Ret _ => []
          end in
        let '(final, log) := run_rows start_index total (S index) rest (data st) in
        (final, (index, trace st ++ failed) :: log)
  end.

(** [run], from the checkpoint [processed_data] loaded at start-up and
    the rows of the input table. *)
Definition run (processed_data : list record) (rows : list record)
    : list record * list (nat * list event) :=
  let start_index := length processed_data in
  run_rows start_index (length rows) 0 rows processed_data.

End Orchestrator.

(** Whether a trace holds a request to the search service. *)
Definition is_search_request (e : event) : bool :=
  match e with SearchRequest _ _ => true | _ => false end.

Definition searches (evs : list event) : bool := existsb is_search_request evs.

(** ** Vocabulary of the statements *)


(** The durations slept and the attempts requested, in order. *)
Definition sleeps (evs : list event) : list nat :=
  omap (fun e => match e with Sleep n => Some n | _ => None end) evs.
Definition requests (evs : list event) : list nat :=
  omap (fun e => match e with SearchRequest _ a => Some a | _ => None end) evs.


(** The identity the duplicate check compares: both names stripped and
    lower-cased. *)
Definition identity_key (school state : string) : string * string :=
  (lower (strip school), lower (strip state)).

(** The text of a column of a stored record, [""] when it is absent. *)
Definition text_of (r : record) (key : string) : string :=
  py_str (default (VStr "") (r !! key)).

(** A stored record whose two identity columns hold text when present. *)
Definition is_text (cell : option value) : bool :=
  match cell with Some (VOther _) => false | _ => true end.
Definition text_keyed (r : record) : bool :=
  is_text (r !! "School") && is_text (r !! "State/UT").

(** The five columns the orchestrator writes. *)
Definition enrichment_fields : list string :=
  ["Website"; "District"; "Address"; "Tel"; "Email"].

(** The record [process_school] appends for a row it does not skip. *)
Definition enriched_record (scrape : world -> string -> string -> page_info)
    (w : world) (row_data : record) (school_name state_ut : string) : record :=
  match (search_school_websites w school_name state_ut 5).1 with
  | [] => blank_enrichment row_data
  | (first :: _) as websites =>
      update_record (<["Website" := VStr first]> (blank_enrichment row_data))
        (merge_sites scrape w state_ut websites)
  end.

(** The four fields of a PageInfo. *)
Inductive field : Type := FDistrict | FAddress | FTel | FEmail.

Definition get (f : field) (info : page_info) : string :=
  match f with
  | FDistrict => District info
  | FAddress => Address info
  | FTel => Tel info
  | FEmail => Email info
  end.

(** ** Example inputs *)

(** A world with nothing reachable, and variations of it. *)
Definition offline : world :=
  World (fun _ _ => SearchFailed) (fun _ => TransportError)
        (fun _ _ => None) (fun _ => []).

Definition with_search (api : nat -> search_response) : world :=
  World (fun _ => api) (fun _ => TransportError) (fun _ _ => None) (fun _ => []).

Definition with_site (api : nat -> search_response) (site : string) (p : page)
    : world :=
  World (fun _ => api)
        (fun u => if bool_decide (u = site) then Fetched p else TransportError)
        (fun _ _ => None) (fun _ => []).

(** The first request is answered with an empty result list, the second
    with one link. *)
Definition empty_then_one (attempt : nat) : search_response :=
  match attempt with
  | 0 => SearchJson (Some [])
  | 1 => SearchJson (Some [Item (Some "https://greenvalley.example")])
  | _ => SearchFailed
  end.


(** A roster row with the two mandatory columns and one more. *)
Definition green_valley : record :=
  {[ "School" := VStr "Green Valley School";
     "State/UT" := VStr "Delhi";
     "Rank" := VOther "7" ]}.

(** The same school, typed with two spaces inside its name. *)
Definition green_valley_spaced : record :=
  <["School" := VStr "Green  Valley School"]> green_valley.

(** Lines joined with newlines. *)
Definition unlines (lines : list string) : string :=
  join (String nl EmptyString) lines.

(** A page text with a district line between two other lines. *)
Definition district_text : string :=
  unlines ["Directorate of Education";
           "North Delhi District, Government of India";
           "Contact us"].

(** A site and its page, the document
    [<h1>Welcome to Green Valley School</h1>
     <p class="loc-icon">12 MG Road<br>Delhi</p>]:
    the location element joins its two strings with ", ", the visible
    text of the document holds them on two lines, neither of which is an
    address line.  [school_world] serves the page. *)
Definition school_site : string := "https://greenvalley.example".
Definition school_page : page :=
  Page (Some "12 MG Road, Delhi")
       (unlines ["Welcome to Green Valley School"; "12 MG Road"; "Delhi"]) [].
Definition school_world : world :=
  with_site (fun _ => SearchJson (Some [Item (Some school_site)]))
    school_site school_page.

(** A site whose home page links to a contact page; the home page text
    holds an e-mail address, the contact page an address line and
    another e-mail address. *)
Definition contact_site : string := "https://hilltop.example/contact".
Definition hilltop_world : world :=
  World (fun _ _ => SearchJson (Some [Item (Some "https://hilltop.example")]))
        (fun u =>
           if bool_decide (u = "https://hilltop.example") then
             Fetched (Page None "Write to office@hilltop.example" ["/contact"])
           else if bool_decide (u = contact_site) then
             Fetched (Page None
                        (unlines ["45 Park Street, Delhi";
                                  "Mail: admissions@hilltop.example"]) [])
           else BadStatus 404)
        (fun base href => Some (base +:+ href))
        (fun _ => []).

(** ** Vocabulary of the further properties *)

(** A string that does not start with white space. *)
Definition starts_clean (s : string) : bool :=
  match s with
  | EmptyString => true
  | String c _ => negb (is_space c)
  end.

(** A string without the character [a]. *)
Fixpoint lacks (a : ascii) (s : string) : bool :=
  match s with
  | EmptyString => true
  | String c s' => negb (Ascii.eqb c a) && lacks a s'
  end.

(** A world whose phone number library finds one number, in the
    fragments that hold "2345", and the text of a page that prints it
    after a slash. *)
Definition phone_world : world :=
  World (fun _ _ => SearchFailed) (fun _ => TransportError) (fun _ _ => None)
        (fun raw => if contains "2345" raw then ["+91 11 2345 6789"] else []).

Definition phone_text : string :=
  "Green Valley School, Delhi / Tel: 011 2345 6789".

(** The checkpoint lists a trace wrote to the JSON file, in order. *)
Definition saves (evs : list event) : list (list record) :=
  omap (fun e => match e with SaveJson d => Some d | _ => None end) evs.

(** A roster row whose School and State/UT cells are text without a
    newline. *)
Definition plain_cell (cell : option value) : bool :=
  match cell with
  | Some (VStr s) => lacks nl s
  | _ => false
  end.
Definition plain_row (row_data : record) : bool :=
  plain_cell (row_data !! "School") && plain_cell (row_data !! "State/UT").

(** The record a stored record is compared with: is its identity key
    that of [school_name] and [state_ut]? *)
Definition same_identity (school_name state_ut : string) (r : record) : bool :=
  bool_decide (identity_key (text_of r "School") (text_of r "State/UT")
               = identity_key school_name state_ut).

(** A row the duplicate check finds in the checkpoint. *)
Definition present (processed_data : list record) (row_data : record) : Prop :=
  exists school state,
    row_data !! "School" = Some school /\
    row_data !! "State/UT" = Some state /\
    is_already_processed processed_data (clean_cell school) (clean_cell state)
    = Ret true.

(** Another school, and a row of a roster that has no School column. *)
Definition hilltop : record :=
  {[ "School" := VStr "Hilltop Academy"; "State/UT" := VStr "Goa" ]}.
Definition nameless : record := {[ "State/UT" := VStr "Goa" ]}.

(** A page with a structured address written with a pipe (its text
    holds that string, as the text of a document does), with one address
    line, and whose contact page repeats that line. *)
Definition campus_site : string := "https://campus.example".
Definition campus_world : world :=
  World (fun _ _ => SearchJson (Some [Item (Some campus_site)]))
        (fun u =>
           if bool_decide (u = campus_site) then
             Fetched (Page (Some "Campus Road | Panaji")
                        (unlines ["Campus School"; "Campus Road | Panaji";
                                  "7 Campus Road, Panaji, Goa"])
                        ["/contact-us"; "/gallery"])
           else if bool_decide (u = "https://campus.example/contact-us") then
             Fetched (Page None
                        (unlines ["Reach us"; "7  Campus Road,   Panaji, Goa"]) [])
           else BadStatus 404)
        (fun base href => Some (base +:+ href))
        (fun _ => []).

(** The same site in a world whose [urljoin] rejects every link. *)
Definition unjoinable_world : world :=
  World (search_api campus_world) (web campus_world) (fun _ _ => None)
        (phone_matches campus_world).

(** A roster row whose School cell is not text (an empty cell, read as
    NaN). *)
Definition unnamed_row : record :=
  {[ "School" := VOther "nan"; "State/UT" := VStr "Goa" ]}.

(** The lines the simple district policy looks at, and what it makes of
    one. *)
Definition names_district (line : string) : bool :=
  contains "district" (lower line) && (String.length line <? 100)%nat.
Definition simple_district_of (line : string) : string :=
  title (strip (sub DataScrap.district_word "" line)).


(** The loop of [run] without the resume test: every row of [rows] is
    handed to [process_school], the first under [index]. *)
Fixpoint handle_from (scrape : world -> string -> string -> page_info) (w : world)
    (total index : nat) (rows : list record) (processed_data : list record)
    : list record * list (nat * list event) :=
  match rows with
  | [] => (processed_data, [])
  | row :: rest =>
      let st := process_school scrape w processed_data row index total in
      let failed :=
        match outcome st with
        | Raise e => [LogRowError index e]
        | Ret _ => []
        end in
      let '(final, log) := handle_from scrape w total (S index) rest (data st) in
      (final, (index, trace st ++ failed) :: log)
  end.



(** * Properties *)

(** ** Website search *)



Lemma search_loop_result (w : world) (query name : string) (retries : nat) :
  forall remaining, remaining <= retries ->
    let found := (search_loop w query name retries remaining).1 in
    found = [] \/
    exists attempt, attempt < retries /\
      found <> [] /\
      found = response_websites (search_api w query attempt).
Proof.
  induction remaining as [|remaining IH]; intros Hle; simpl; [by left|].
  destruct (bool_decide_reflect
              (response_websites
                 (search_api w query (retries - S remaining)) = [])) as [He|Hne];
    simpl.
  - destruct (search_loop w query name retries remaining) as [found evs] eqn:Hl.
    simpl in *. apply IH. lia.
  - right. exists (retries - S remaining). repeat split; [lia|done].
Qed.

Lemma sleeps_app (a b : list event) : sleeps (a ++ b) = sleeps a ++ sleeps b.
Proof. apply omap_app. Qed.

Lemma requests_app (a b : list event) : requests (a ++ b) = requests a ++ requests b.
Proof. apply omap_app. Qed.

(** The search loop, told by the number [n] of attempts that yield no
    link before one does ([n = remaining] when none does). *)
Lemma search_loop_attempts (w : world) (query name : string) (retries : nat) :
  forall remaining n,
    remaining <= retries -> n <= remaining ->
    (forall i, i < n ->
       response_websites (search_api w query (retries - remaining + i)) = []) ->
    (n < remaining ->
       response_websites (search_api w query (retries - remaining + n)) <> []) ->
    let '(found, evs) := search_loop w query name retries remaining in
    found = (if (n <? remaining)%nat
             then response_websites (search_api w query (retries - remaining + n))
             else [])
    /\ sleeps evs = replicate (n `min` (remaining - 1)) 2
    /\ requests evs = seq (retries - remaining) (S n `min` remaining).
Proof.
  induction remaining as [|remaining IH]; intros n Hle Hn Hempty Hstop.
  - assert (n = 0) as -> by lia. done.
  - simpl search_loop.
    destruct n as [|n].
    + rewrite Nat.add_0_r in Hstop.
      rewrite bool_decide_eq_false_2 by (apply Hstop; lia). simpl.
      rewrite Nat.add_0_r. done.
    + pose proof (Hempty 0 ltac:(lia)) as H0. rewrite Nat.add_0_r in H0.
      rewrite bool_decide_eq_true_2 by done. simpl negb. cbv iota.
      specialize (IH n ltac:(lia) ltac:(lia)).
      destruct (search_loop w query name retries remaining) as [found evs].
      destruct IH as (Hf & Hs & Hr).
      * intros i Hi. specialize (Hempty (S i) ltac:(lia)).
        by replace (retries - remaining + i) with (retries - S remaining + S i) by lia.
      * intros Hlt. specialize (Hstop ltac:(lia)).
        by replace (retries - remaining + n) with (retries - S remaining + S n) by lia.
      * replace (retries - S remaining + S n) with (retries - remaining + n) by lia.
        set (failed := match search_api w query (retries - S remaining) with
                       | SearchFailed => _
                       | SearchJson _ => _
                       end).
        assert (sleeps failed = [] /\ requests failed = []) as [Hfs Hfr]
          by (subst failed; destruct (search_api w query (retries - S remaining));
              split; reflexivity).
        split; [|split].
        -- rewrite Hf.
           by destruct (Nat.ltb_spec n remaining),
                (Nat.ltb_spec (S n) (S remaining)); try lia.
        -- change (sleeps (failed ++
                     (if (retries - S remaining <? retries - 1)%nat
                      then [Sleep 2] else []) ++ evs)
                   = replicate (S n `min` (S remaining - 1)) 2).
           rewrite !sleeps_app, Hfs, Hs.
           destruct (Nat.ltb_spec (retries - S remaining) (retries - 1)) as [Hlt|Hge].
           ++ replace (S n `min` (S remaining - 1)) with (S (n `min` (remaining - 1)))
                by lia.
              done.
           ++ assert (remaining = 0) as -> by lia.
              assert (n = 0) as -> by lia. done.
        -- change (retries - S remaining ::
                   requests (failed ++
                     (if (retries - S remaining <? retries - 1)%nat
                      then [Sleep 2] else []) ++ evs)
                   = seq (retries - S remaining) (S (S n) `min` S remaining)).
           rewrite !requests_app, Hfr, Hr.
           assert (requests (if (retries - S remaining <? retries - 1)%nat
                             then [Sleep 2] else []) = [])
             as -> by (destruct (retries - S remaining <? retries - 1)%nat; reflexivity).
           replace (S (S n) `min` S remaining) with (S (S n `min` remaining)) by lia.
           replace (retries - remaining) with (S (retries - S remaining)) by lia.
           done.
Qed.





(** C2, as the code has it.  Let [n] be the number of attempts that
    yield no link before the first that does, or [retries] when no
    attempt does.  A failed request and an answered request without a
    qualifying link are treated alike: the search asks again, [n + 1]
    times in all and at most [retries] times, sleeping 2 units between
    two attempts, and returns the links of attempt [n], or the empty
    list when all [retries] attempts yielded none. *)
Theorem search_retries_after_any_attempt_without_links
    (w : world) (school_name state_ut : string) (retries n : nat)
    (Hn : n <= retries)
    (Hnone : forall i, i < n ->
       response_websites (search_api w (query_text school_name state_ut) i) = [])
    (Hsome : n < retries ->
       response_websites (search_api w (query_text school_name state_ut) n) <> []) :
  let res := search_school_websites w school_name state_ut retries in
  res.1 = (if (n <? retries)%nat
           then response_websites (search_api w (query_text school_name state_ut) n)
           else [])
  /\ sleeps res.2 = replicate (n `min` (retries - 1)) 2
  /\ requests res.2 = seq 0 (S n `min` retries).
Proof.
  unfold search_school_websites.
  pose proof (search_loop_attempts w (query_text school_name state_ut)
                (join " " (split_ws school_name)) retries retries n
                (le_n _) Hn) as H.
  rewrite Nat.sub_diag in H. simpl in H.
  specialize (H Hnone Hsome).
  by destruct (search_loop _ _ _ _ _) as [found evs].
Qed.

Lemma search_retries_after_any_attempt_without_links_witness :
  let res := search_school_websites (with_search empty_then_one)
               "Green Valley School" "Delhi" 5 in
  res.1 = ["https://greenvalley.example"]
  /\ sleeps res.2 = [2]
  /\ requests res.2 = [0; 1].
Proof.
  apply (search_retries_after_any_attempt_without_links
           (with_search empty_then_one) "Green Valley School" "Delhi" 5 1).
  - lia.
  - intros i Hi. assert (i = 0) as -> by lia. reflexivity.
  - intros _. discriminate.
Defined.

(** C2, as stated, fails: the search does not only ask again after a
    failed request.  Where the first request is answered without any
    link, a second request follows. *)
Lemma search_retries_after_answered_request :
  ~ (forall (w : world) (school_name state_ut : string) (retries attempt : nat),
       In (SearchRequest (query_text school_name state_ut) (S attempt))
          (search_school_websites w school_name state_ut retries).2 ->
       search_api w (query_text school_name state_ut) attempt = SearchFailed).
Proof.
  intros H.
  specialize (H (with_search empty_then_one) "Green Valley School" "Delhi" 5 0).
  simpl in H. discriminate H. vm_compute. tauto.
Qed.

(** ** The duplicate check *)

Lemma field_matches_text (r : record) (key x : string) :
  is_text (r !! key) = true ->
  field_matches r key x
  = Ret (bool_decide (lower (strip (text_of r key)) = lower (strip x))).
Proof.
  unfold field_matches, text_of. by destruct (r !! key) as [[s|o]|].
Qed.

(** C3, as the code has it.  On a checkpoint whose School and State/UT
    cells hold text, the duplicate check answers without raising, and it
    answers yes exactly when some stored record has the same identity
    key, the key of a pair being the two names stripped of surrounding
    white space and lower-cased (white space inside a name is kept). *)
Theorem duplicate_check_compares_stripped_lowercase
    (processed_data : list record) (school_name state_ut : string)
    (Htext : forallb text_keyed processed_data = true) :
  exists b,
    is_already_processed processed_data school_name state_ut = Ret b /\
    (b = true <->
     exists r, In r processed_data /\
       identity_key (text_of r "School") (text_of r "State/UT")
       = identity_key school_name state_ut).
Proof.
  induction processed_data as [|r rest IH]; simpl in *.
  - exists false. split; [done|]. split; [done|]. by intros (r & [] & _).
  - apply andb_prop in Htext as [Hr Hrest].
    apply andb_prop in Hr as [Hschool Hstate].
    destruct (IH Hrest) as (b & Hb & Hiff).
    rewrite (field_matches_text r "School") by done.
    rewrite (field_matches_text r "State/UT") by done.
    unfold identity_key in *.
    destruct (bool_decide_reflect
                (lower (strip (text_of r "School")) = lower (strip school_name)))
      as [Hs|Hs];
      [destruct (bool_decide_reflect
                   (lower (strip (text_of r "State/UT")) = lower (strip state_ut)))
         as [Ht|Ht]|].
    + exists true. split; [done|]. split; [|done]. intros _.
      exists r. split; [by left|]. by rewrite Hs, Ht.
    + exists b. split; [done|]. rewrite Hiff. split.
      * intros (r' & Hin & Hk). exists r'. split; [by right|done].
      * intros (r' & [<-|Hin] & Hk); [congruence|by exists r'].
    + exists b. split; [done|]. rewrite Hiff. split.
      * intros (r' & Hin & Hk). exists r'. split; [by right|done].
      * intros (r' & [<-|Hin] & Hk); [congruence|by exists r'].
Qed.

Lemma duplicate_check_compares_stripped_lowercase_witness :
  exists b,
    is_already_processed [green_valley] "  GREEN VALLEY school " "delhi" = Ret b /\
    (b = true <->
     exists r, In r [green_valley] /\
       identity_key (text_of r "School") (text_of r "State/UT")
       = identity_key "  GREEN VALLEY school " "delhi").
Proof.
  apply (duplicate_check_compares_stripped_lowercase
           [green_valley] "  GREEN VALLEY school " "delhi").
  vm_compute. reflexivity.
Defined.

(** C3, as stated, fails: two names that are equal once their white
    space is collapsed and their case folded are not the same identity
    to the duplicate check when they differ by a run of spaces inside. *)
Lemma duplicate_check_keeps_inner_whitespace :
  lower (join " " (split_ws "Green  Valley School"))
  = lower (join " " (split_ws "Green Valley School"))
  /\ is_already_processed [green_valley] "Green  Valley School" "Delhi"
     = Ret false.
Proof. split; vm_compute; reflexivity. Qed.

(** ** The orchestrator *)

Section OrchestratorFacts.

Variable scrape : world -> string -> string -> page_info.
Variable w : world.

(** What [process_school] leaves in [self.processed_data]. *)
Lemma process_school_data (processed_data : list record) (row_data : record)
    (index total : nat) :
  data (process_school scrape w processed_data row_data index total)
  = match row_data !! "School", row_data !! "State/UT" with
    | Some school, Some state =>
        match is_already_processed processed_data
                (clean_cell school) (clean_cell state) with
        | Ret false =>
            processed_data ++
            [enriched_record scrape w row_data (clean_cell school) (clean_cell state)]
        | _ => processed_data
        end
    | _, _ => processed_data
    end.
Proof.
  unfold process_school, enriched_record.
  destruct (row_data !! "School") as [school|]; [|done].
  destruct (row_data !! "State/UT") as [state|]; [|done].
  destruct (is_already_processed _ _ _) as [[]|e]; try done.
  destruct (search_school_websites w (clean_cell school) (clean_cell state) 5)
    as [websites searched].
  destruct websites; reflexivity.
Qed.

Lemma process_school_grows (processed_data : list record) (row_data : record)
    (index total : nat) :
  let st := process_school scrape w processed_data row_data index total in
  data st = processed_data \/ exists r, data st = processed_data ++ [r].
Proof.
  simpl. rewrite process_school_data.
  destruct (row_data !! "School"); [|by left].
  destruct (row_data !! "State/UT"); [|by left].
  destruct (is_already_processed _ _ _) as [[]|]; try by left.
  right. by eexists.
Qed.

(** The rows handed to [process_school]: those from [start_index] on. *)
Lemma run_rows_indices (start_index total : nat) (rows : list record) :
  forall index processed_data,
    map fst (run_rows scrape w start_index total index rows processed_data).2
    = seq (index `max` start_index)
          (index + length rows - index `max` start_index).
Proof.
  induction rows as [|row rest IH]; intros index processed_data; simpl.
  - by replace (index + 0 - index `max` start_index) with 0 by lia.
  - destruct (Nat.ltb_spec index start_index) as [Hlt|Hge].
    + rewrite IH.
      replace (S index `max` start_index) with (index `max` start_index) by lia.
      by replace (S index + length rest) with (index + S (length rest)) by lia.
    + destruct (run_rows scrape w start_index total (S index) rest _)
        as [final log] eqn:Hrun.
      simpl. specialize (IH (S index)
        (data (process_school scrape w processed_data row index total))).
      rewrite Hrun in IH. simpl in IH. rewrite IH.
      replace (S index `max` start_index) with (S index) by lia.
      replace (index `max` start_index) with index by lia.
      replace (index + S (length rest) - index) with (S (length rest)) by lia.
      simpl. f_equal. f_equal. lia.
Qed.

(** The checkpoint list only grows, by at most one record for each row
    handed to [process_school]. *)
Lemma run_rows_grows (start_index total : nat) (rows : list record) :
  forall index processed_data,
    let res := run_rows scrape w start_index total index rows processed_data in
    exists new, res.1 = processed_data ++ new /\ length new <= length res.2.
Proof.
  induction rows as [|row rest IH]; intros index processed_data; simpl.
  - exists []. by rewrite app_nil_r.
  - destruct (index <? start_index)%nat; [apply IH|].
    specialize (IH (S index)
      (data (process_school scrape w processed_data row index total))).
    destruct (run_rows scrape w start_index total (S index) rest _)
      as [final log].
    simpl in *. destruct IH as (new & -> & Hlen).
    destruct (process_school_grows processed_data row index total)
      as [->|[r ->]].
    + exists new. split; [done|lia].
    + exists (r :: new). rewrite <- app_assoc. split; [done|simpl; lia].
Qed.

End OrchestratorFacts.

(** C4, as the code has it.  Within a run the checkpoint list is only
    extended, by at most one record per row handed to the orchestrator.
    A row appends exactly one record when it has both identity columns
    and the duplicate check answers no, and no record otherwise (a row
    found in the checkpoint is skipped).  When the search finds no
    website for such a row, the appended record is the row with the five
    enrichment fields empty. *)
Theorem checkpoint_grows_by_one_record_per_new_row
    (scrape : world -> string -> string -> page_info) (w : world)
    (processed_data rows : list record) (row_data : record) (index total : nat) :
  let res := run scrape w processed_data rows in
  let st := process_school scrape w processed_data row_data index total in
  (exists new, res.1 = processed_data ++ new /\ length new <= length res.2)
  /\ (data st = processed_data \/ exists r, data st = processed_data ++ [r])
  /\ ((exists r, data st = processed_data ++ [r]) <->
      exists school state,
        row_data !! "School" = Some school /\
        row_data !! "State/UT" = Some state /\
        is_already_processed processed_data (clean_cell school) (clean_cell state)
        = Ret false)
  /\ (forall school state,
        row_data !! "School" = Some school ->
        row_data !! "State/UT" = Some state ->
        is_already_processed processed_data (clean_cell school) (clean_cell state)
        = Ret false ->
        (search_school_websites w (clean_cell school) (clean_cell state) 5).1 = [] ->
        data st = processed_data ++ [blank_enrichment row_data]).
Proof.
  simpl. split; [|split; [|split]].
  - apply run_rows_grows.
  - apply process_school_grows.
  - rewrite process_school_data. split.
    + intros [r Hr].
      destruct (row_data !! "School") as [school|];
        [|by apply (f_equal length) in Hr; rewrite length_app in Hr; simpl in Hr; lia].
      destruct (row_data !! "State/UT") as [state|];
        [|by apply (f_equal length) in Hr; rewrite length_app in Hr; simpl in Hr; lia].
      destruct (is_already_processed _ _ _) as [[]|] eqn:Hdup;
        try (by apply (f_equal length) in Hr; rewrite length_app in Hr;
                simpl in Hr; lia).
      by exists school, state.
    + intros (school & state & -> & -> & ->). by eexists.
  - intros school state Hschool Hstate Hdup Hnone.
    rewrite process_school_data, Hschool, Hstate, Hdup.
    unfold enriched_record. by rewrite Hnone.
Qed.

Lemma checkpoint_grows_by_one_record_per_new_row_witness :
  data (process_school DataAugmentation.scrape_school_info offline
          [green_valley_spaced] green_valley 1 2)
  = [green_valley_spaced; blank_enrichment green_valley].
Proof.
  destruct (checkpoint_grows_by_one_record_per_new_row
              DataAugmentation.scrape_school_info offline
              [green_valley_spaced] [] green_valley 1 2)
    as (_ & _ & _ & Hblank).
  apply (Hblank (VStr "Green Valley School") (VStr "Delhi"));
    vm_compute; reflexivity.
Defined.

(** C4, as stated, fails: a roster that names the same school in two
    rows hands both rows to the orchestrator, and the second appends
    nothing. *)
Lemma duplicate_row_appends_no_record :
  let res := run DataAugmentation.scrape_school_info offline []
               [green_valley; green_valley] in
  map fst res.2 = [0; 1] /\ length res.1 = 1.
Proof. split; vm_compute; reflexivity. Qed.

(** The loop of [run] is the plain loop over the rows from
    [start_index] on: the rows before it are dropped unread. *)
Lemma run_rows_handle_from
    (scrape : world -> string -> string -> page_info) (w : world)
    (start_index total : nat) (rows : list record) :
  forall index processed_data,
    run_rows scrape w start_index total index rows processed_data
    = handle_from scrape w total (index `max` start_index)
        (drop (start_index - index) rows) processed_data.
Proof.
  induction rows as [|row rest IH]; intros index processed_data.
  - by rewrite drop_nil.
  - cbn [run_rows]. destruct (Nat.ltb_spec index start_index) as [Hlt|Hge].
    + rewrite IH.
      replace (start_index - index) with (S (start_index - S index)) by lia.
      cbn [drop].
      by replace (S index `max` start_index) with (index `max` start_index)
        by lia.
    + replace (start_index - index) with 0 by lia.
      replace (index `max` start_index) with index by lia.
      cbn [drop handle_from]. rewrite IH.
      replace (start_index - S index) with 0 by lia.
      by replace (S index `max` start_index) with (S index) by lia.
Qed.

(** C6. With [K] records in the checkpoint and [N] rows in the input,
    a run does what handing the rows of index [K] to [N - 1] to the
    orchestrator does, one after the other from the loaded checkpoint,
    and nothing else: its checkpoint and everything it prints, requests
    and saves are those of that loop.  So the rows handed over are those
    of index [K] to [N - 1], the rows of index below [K] play no part (a
    roster that differs in them only gives the same run, with the same
    search requests), and which rows are handed over depends on the
    number of checkpoint records, not on what they hold: a first row
    that the checkpoint does not hold is passed over all the same. *)
Theorem resume_skips_by_position
    (scrape : world -> string -> string -> page_info) (w : world)
    (processed_data rows : list record) :
  let K := length processed_data in
  let N := length rows in
  run scrape w processed_data rows
  = handle_from scrape w N K (drop K rows) processed_data
  /\ map fst (run scrape w processed_data rows).2 = seq K (N - K)
  /\ (forall rows' : list record,
        length rows' = N -> drop K rows' = drop K rows ->
        run scrape w processed_data rows' = run scrape w processed_data rows)
  /\ (forall other : list record,
        length other = K ->
        map fst (run scrape w other rows).2
        = map fst (run scrape w processed_data rows).2)
  /\ run DataAugmentation.scrape_school_info offline [hilltop]
       [green_valley; green_valley_spaced]
     = ([hilltop; blank_enrichment green_valley_spaced],
        (handle_from DataAugmentation.scrape_school_info offline 2 1
           [green_valley_spaced] [hilltop]).2).
Proof.
  assert (forall pd rs : list record,
            run scrape w pd rs
            = handle_from scrape w (length rs) (length pd)
                (drop (length pd) rs) pd) as Hrun.
  { intros pd rs. unfold run. rewrite run_rows_handle_from.
    by rewrite Nat.max_0_l, Nat.sub_0_r. }
  assert (forall pd : list record,
            map fst (run scrape w pd rows).2
            = seq (length pd) (length rows - length pd)) as Hidx.
  { intros pd. unfold run. rewrite run_rows_indices. simpl. done. }
  simpl. split; [apply Hrun|]. split; [apply Hidx|]. split; [|split].
  - intros rows' Hlen Hdrop. by rewrite !Hrun, Hlen, Hdrop.
  - intros other Hlen. by rewrite !Hidx, Hlen.
  - vm_compute. reflexivity.
Qed.

(** C9. In the record a row appends, every column other than Website,
    District, Address, Tel and Email is as the row has it: present with
    the same value, or absent. *)
Theorem other_columns_pass_through
    (scrape : world -> string -> string -> page_info) (w : world)
    (processed_data : list record) (row_data r : record)
    (index total : nat) (column : string)
    (Happended : data (process_school scrape w processed_data row_data index total)
                 = processed_data ++ [r])
    (Hother : ~ In column enrichment_fields) :
  r !! column = row_data !! column.
Proof.
  rewrite process_school_data in Happended.
  assert (forall l : list record, l <> l ++ [r]) as Hgrow.
  { intros l Hl. apply (f_equal length) in Hl.
    rewrite length_app in Hl. simpl in Hl. lia. }
  destruct (row_data !! "School") as [school|]; [|by apply Hgrow in Happended].
  destruct (row_data !! "State/UT") as [state|]; [|by apply Hgrow in Happended].
  destruct (is_already_processed _ _ _) as [[]|];
    try (by apply Hgrow in Happended).
  apply app_inj_tail in Happended as [_ <-].
  assert (forall (k : string) (v : value) (m : gmap string value),
            In k enrichment_fields -> <[k := v]> m !! column = m !! column)
    as Hskip.
  { intros k v m Hk. apply lookup_insert_ne. by intros ->. }
  unfold enriched_record, update_record, blank_enrichment.
  destruct ((search_school_websites w (clean_cell school) (clean_cell state) 5).1);
    rewrite !Hskip by (simpl; tauto); done.
Qed.

Lemma other_columns_pass_through_witness :
  update_record
    (<["Website" := VStr school_site]> (blank_enrichment green_valley))
    (DataScrap.scrape_school_info school_world school_site "Delhi")
    !! "Rank"
  = green_valley !! "Rank".
Proof.
  apply (other_columns_pass_through DataScrap.scrape_school_info school_world
           [] green_valley _ 0 1 "Rank").
  - vm_compute. reflexivity.
  - simpl. intros H. repeat destruct H as [H|H]; try discriminate H. exact H.
Defined.

(** ** The page scraper *)




(** With the region hint empty no line is an address candidate. *)
Lemma scan_addresses_no_hint (lines : list string) :
  forall address candidates,
    DataAugmentation.scan_addresses "" lines address candidates
    = (address, candidates).
Proof. induction lines as [|line rest IH]; intros; simpl; [done|apply IH]. Qed.

Lemma scan_lines_no_hint (lines : list string) :
  forall address district,
    (DataScrap.scan_lines "" lines address district).1 = address.
Proof.
  induction lines as [|line rest IH]; intros address district; simpl; [done|].
  rewrite IH. by rewrite andb_false_r.
Qed.

(** ** The field extractor *)

(** C8. Under the richer district policy, when the first line of a text
    with a district keyword is "North Delhi District, Government of
    India", the extracted district is "North Delhi", whatever the region
    hint and the rest of the text. *)
Theorem rich_policy_district_of_north_delhi_line
    (w : world) (text state_ut : string)
    (Hline : DataAugmentation.district_line (text_lines text)
             = "North Delhi District, Government of India") :
  District (DataAugmentation.extract_info w text state_ut) = "North Delhi".
Proof.
  unfold DataAugmentation.extract_info.
  destruct (DataAugmentation.scan_addresses state_ut (text_lines text) "" [])
    as [address candidates].
  simpl. unfold DataAugmentation.extract_district. rewrite Hline.
  vm_compute. reflexivity.
Qed.

Lemma rich_policy_district_of_north_delhi_line_witness :
  District (DataAugmentation.extract_info offline district_text "Delhi")
  = "North Delhi".
Proof.
  apply (rich_policy_district_of_north_delhi_line offline district_text "Delhi").
  vm_compute. reflexivity.
Defined.

(** C10. With an empty region hint both extractors return an empty
    Address; in the richer policy there is then no address candidate for
    the district fallback, and a District that is not empty comes from a
    line that matches the district keyword pattern. *)
Theorem empty_region_hint_gives_no_address (w : world) (text : string) :
  Address (DataAugmentation.extract_info w text "") = ""
  /\ Address (DataScrap.extract_info w text "") = ""
  /\ (DataAugmentation.scan_addresses "" (text_lines text) "" []).2 = []
  /\ (District (DataAugmentation.extract_info w text "") <> "" ->
      exists line, In line (text_lines text)
                   /\ found DataAugmentation.district_keyword line = true).
Proof.
  unfold DataAugmentation.extract_info, DataScrap.extract_info.
  rewrite scan_addresses_no_hint.
  pose proof (scan_lines_no_hint (text_lines text) "" "") as Hsimple.
  destruct (DataScrap.scan_lines "" (text_lines text) "" "") as [address district].
  simpl in *. repeat split; try done.
  unfold DataAugmentation.extract_district, DataAugmentation.district_line.
  destruct (List.find (found DataAugmentation.district_keyword) (text_lines text))
    as [line|] eqn:Hfind; simpl; [|done].
  intros _. apply find_some in Hfind. by exists line.
Qed.

Lemma empty_region_hint_gives_no_address_witness :
  exists line, In line (text_lines district_text)
               /\ found DataAugmentation.district_keyword line = true.
Proof.
  destruct (empty_region_hint_gives_no_address offline district_text)
    as (_ & _ & _ & Hdistrict).
  apply Hdistrict. vm_compute. discriminate.
Defined.

(** X9.  In [data_augmentation.py] the text of the structured location
    element never reaches the result: the extraction from the page text
    replaces all four fields. *)
Lemma structured_address_is_dropped (w : world) (url state_ut : string) (p : page) :
  web w url = Fetched p ->
  DataAugmentation.scrape_school_info w url state_ut
  = DataAugmentation.follow_links w url state_ut (hrefs p)
      (DataAugmentation.extract_info w (page_text p) state_ut).
Proof.
  intros Hp. unfold DataAugmentation.scrape_school_info. rewrite Hp.
  unfold dict_update. by destruct (DataAugmentation.extract_info _ _ _), (loc_icon p).
Qed.

(** C1 fails on [data_augmentation.py].  The location element of the
    page of [school_world] holds "12 MG Road" and "Delhi" on two lines:
    it yields the structured address "12 MG Road, Delhi", and the text of
    the page, which holds the two lines apart, yields no address.  The
    scraper of [data_augmentation.py] returns an empty Address and the
    orchestrator records none, while the scraper of [data_scrap.py]
    keeps the structured address. *)
Theorem structured_address_lost_on_school_page :
  Address (DataAugmentation.extract_info school_world (page_text school_page) "Delhi")
  = ""
  /\ Address (DataAugmentation.scrape_school_info school_world school_site "Delhi")
     = ""
  /\ Address (DataScrap.scrape_school_info school_world school_site "Delhi")
     = "12 MG Road, Delhi"
  /\ (data (process_school DataAugmentation.scrape_school_info school_world []
              green_valley 0 1)) !! 0
     ≫= (fun r : record => r !! "Address")
     = Some (VStr "").
Proof. repeat split; vm_compute; reflexivity. Qed.

(** ** First non-empty value wins, where the code merges that way *)

Lemma keep_first_sticky (old new : string) :
  truthy old = true -> keep_first old new = old.
Proof. intros H. unfold keep_first. by rewrite H. Qed.

Lemma merge_missing_sticky (f : field) (info new_info : page_info) :
  truthy (get f info) = true ->
  get f (merge_missing info new_info) = get f info.
Proof. destruct f; simpl; apply keep_first_sticky. Qed.

(** X8.  Subpage merge of [data_augmentation.py]: a field that is set when
    the loop over the links starts keeps its value to the end, whatever
    the subpages yield. *)
Theorem subpage_merge_keeps_first_value
    (w : world) (url state_ut : string) (links : list string)
    (f : field) (info : page_info)
    (Hset : truthy (get f info) = true) :
  get f (DataAugmentation.follow_links w url state_ut links info) = get f info.
Proof.
  revert info Hset.
  induction links as [|href rest IH]; intros info Hset; simpl; [done|].
  destruct (is_contact_link href); [|by apply IH].
  destruct (resolve w url href) as [target|]; [|done].
  destruct (web w target) as [| | |sub_page]; try by apply IH.
  rewrite IH; rewrite merge_missing_sticky; done.
Qed.

Lemma subpage_merge_keeps_first_value_witness :
  get FEmail
    (DataAugmentation.follow_links hilltop_world "https://hilltop.example" "Delhi"
       ["/contact"] (PageInfo "" "" "" "office@hilltop.example"))
  = "office@hilltop.example".
Proof.
  apply (subpage_merge_keeps_first_value hilltop_world "https://hilltop.example"
           "Delhi" ["/contact"] FEmail (PageInfo "" "" "" "office@hilltop.example")).
  reflexivity.
Defined.

(** Merge across candidate sites: a field that the sites scraped so far
    have set keeps its value when more sites are scraped. *)
Theorem site_merge_keeps_first_value
    (scrape : world -> string -> string -> page_info) (w : world)
    (state_ut : string) (earlier later : list string) (f : field)
    (Hset : truthy (get f (merge_sites scrape w state_ut earlier)) = true) :
  get f (merge_sites scrape w state_ut (earlier ++ later))
  = get f (merge_sites scrape w state_ut earlier).
Proof.
  unfold merge_sites in *. rewrite foldl_app.
  revert Hset.
  generalize (foldl (fun merged_info url =>
                       merge_missing merged_info (scrape w url state_ut))
                    empty_info earlier).
  induction later as [|url rest IH]; intros info Hset; simpl; [done|].
  rewrite IH; rewrite merge_missing_sticky; done.
Qed.

Lemma site_merge_keeps_first_value_witness :
  get FEmail
    (merge_sites DataAugmentation.scrape_school_info hilltop_world "Delhi"
       (["https://hilltop.example"] ++ [contact_site]))
  = "office@hilltop.example".
Proof.
  rewrite (site_merge_keeps_first_value DataAugmentation.scrape_school_info
             hilltop_world "Delhi" ["https://hilltop.example"] [contact_site]
             FEmail); vm_compute; reflexivity.
Defined.

(** * Further properties of the pipeline *)

(** ** Python strings *)

Lemma rstrip_idem (s : string) : rstrip (rstrip s) = rstrip s.
Proof.
  induction s as [|c s IH]; simpl; [done|].
  destruct (rstrip s) as [|d r] eqn:Hr.
  - destruct (is_space c) eqn:Hc; simpl; [done|]. by rewrite Hc.
  - simpl in *. by rewrite IH.
Qed.

Lemma lstrip_starts_clean (s : string) : starts_clean (lstrip s) = true.
Proof.
  induction s as [|c s IH]; simpl; [done|].
  destruct (is_space c) eqn:Hc; [done|]. simpl. by rewrite Hc.
Qed.

Lemma lstrip_clean (s : string) : starts_clean s = true -> lstrip s = s.
Proof.
  destruct s as [|c s]; simpl; [done|]. by destruct (is_space c).
Qed.

Lemma rstrip_starts_clean (s : string) :
  starts_clean s = true -> starts_clean (rstrip s) = true.
Proof.
  destruct s as [|c s]; simpl; [done|].
  destruct (rstrip s); [|done].
  destruct (is_space c) eqn:Hc; simpl; [done|]. by rewrite Hc.
Qed.

Lemma strip_idem (s : string) : strip (strip s) = strip s.
Proof.
  unfold strip.
  rewrite (lstrip_clean (rstrip (lstrip s)))
    by apply rstrip_starts_clean, lstrip_starts_clean.
  apply rstrip_idem.
Qed.

Lemma replace_char_lacks (a b : ascii) (s : string) :
  lacks a s = true -> replace_char a b s = s.
Proof.
  unfold replace_char. induction s as [|c s IH]; simpl; [done|].
  intros [Hc Hs]%andb_prop. rewrite IH by done.
  by destruct (Ascii.eqb c a).
Qed.

Lemma lstrip_lacks (a : ascii) (s : string) :
  lacks a s = true -> lacks a (lstrip s) = true.
Proof.
  induction s as [|c s IH]; simpl; [done|].
  intros H. destruct (is_space c); [|done].
  apply andb_prop in H as [_ Hs]. by apply IH.
Qed.

Lemma rstrip_lacks (a : ascii) (s : string) :
  lacks a s = true -> lacks a (rstrip s) = true.
Proof.
  induction s as [|c s IH]; simpl; [done|].
  intros [Hc Hs]%andb_prop. specialize (IH Hs).
  destruct (rstrip s) as [|d r].
  - destruct (is_space c); simpl; [done|]. by rewrite Hc.
  - simpl in *. by rewrite Hc, IH.
Qed.

Lemma strip_lacks (a : ascii) (s : string) :
  lacks a s = true -> lacks a (strip s) = true.
Proof. intros H. by apply rstrip_lacks, lstrip_lacks. Qed.

(** The pieces of a split hold no separator. *)
Lemma split_on_lacks (a : ascii) (s : string) :
  Forall (fun piece => lacks a piece = true) (split_on (Ascii.eqb a) s).
Proof.
  induction s as [|c s IH]; simpl; [by repeat constructor|].
  destruct (Ascii.eqb_spec a c) as [->|Hne].
  - by constructor.
  - assert (negb (Ascii.eqb c a) = true) as Hc
      by (destruct (Ascii.eqb_spec c a); [congruence|done]).
    destruct (split_on (Ascii.eqb a) s) as [|piece pieces].
    + repeat constructor. simpl. by rewrite Hc.
    + inversion IH as [|? ? Hp Hps]; subst. constructor; [|done].
      simpl. by rewrite Hc, Hp.
Qed.

(** ** The field extractor *)

(** X1.  The lines the extractors work on are not empty, carry no white
    space at either end and hold no newline. *)
Theorem text_lines_are_stripped (text line : string)
    (Hline : In line (text_lines text)) :
  line <> "" /\ strip line = line /\ lacks nl line = true.
Proof.
  unfold text_lines in Hline. apply filter_In in Hline as [Hin Htruthy].
  apply in_map_iff in Hin as (piece & <- & Hpiece).
  split; [|split].
  - intros Hempty. by rewrite Hempty in Htruthy.
  - apply strip_idem.
  - apply strip_lacks.
    pose proof (split_on_lacks nl text) as Hall.
    rewrite Forall_forall in Hall. apply Hall. by apply list_elem_of_In.
Qed.

Lemma text_lines_are_stripped_witness :
  "North Delhi District, Government of India" <> ""
  /\ strip "North Delhi District, Government of India"
     = "North Delhi District, Government of India"
  /\ lacks nl "North Delhi District, Government of India" = true.
Proof.
  apply (text_lines_are_stripped district_text).
  vm_compute. tauto.
Defined.

Lemma address_line_not_empty (state_ut line : string) :
  is_address_line state_ut line = true -> truthy line = true.
Proof.
  destruct line; [|done]. unfold is_address_line.
  by destruct (truthy state_ut).
Qed.

Lemma rich_scan_addresses (state_ut : string) (lines : list string) :
  forall address candidates,
    DataAugmentation.scan_addresses state_ut lines address candidates
    = (if truthy address then address
       else default "" (List.find (is_address_line state_ut) lines),
       candidates ++ List.filter (is_address_line state_ut) lines).
Proof.
  induction lines as [|line rest IH]; intros address candidates; simpl.
  - rewrite app_nil_r. by destruct address.
  - destruct (is_address_line state_ut line) eqn:Hline.
    + rewrite IH, <- app_assoc. simpl.
      destruct (truthy address) eqn:Ha; simpl; [by rewrite Ha|].
      by rewrite (address_line_not_empty _ _ Hline).
    + apply IH.
Qed.

Lemma simple_scan_lines (state_ut : string) (lines : list string) :
  forall address district,
    (DataScrap.scan_lines state_ut lines address district).1
    = if truthy address then address
      else default "" (List.find (is_address_line state_ut) lines).
Proof.
  induction lines as [|line rest IH]; intros address district; simpl.
  - by destruct address.
  - rewrite IH. unfold is_address_line.
    destruct (truthy address) eqn:Ha; simpl; [by rewrite Ha|].
    destruct (truthy state_ut && found (address_re state_ut) line) eqn:Hline.
    + by rewrite (address_line_not_empty state_ut line Hline).
    + by rewrite Ha.
Qed.

(** X2.  Both extractors return as Address the first line of the text that
    qualifies as an address line, or the empty string when none does;
    they return the same Tel and the same Email, so that they differ in
    District only. *)
Theorem extractors_agree_but_for_district (w : world) (text state_ut : string) :
  Address (DataAugmentation.extract_info w text state_ut)
  = default "" (List.find (is_address_line state_ut) (text_lines text))
  /\ Address (DataScrap.extract_info w text state_ut)
     = Address (DataAugmentation.extract_info w text state_ut)
  /\ Tel (DataScrap.extract_info w text state_ut)
     = Tel (DataAugmentation.extract_info w text state_ut)
  /\ Email (DataScrap.extract_info w text state_ut)
     = Email (DataAugmentation.extract_info w text state_ut).
Proof.
  unfold DataAugmentation.extract_info, DataScrap.extract_info.
  rewrite rich_scan_addresses.
  pose proof (simple_scan_lines state_ut (text_lines text) "" "") as Hsimple.
  destruct (DataScrap.scan_lines state_ut (text_lines text) "" "")
    as [address district].
  simpl in *. by rewrite Hsimple.
Qed.

(** X3.  The e-mail address extracted from a text is never one of a social
    domain: it is empty or a match of the e-mail pattern that names
    neither facebook.com nor twitter.com. *)
Theorem extracted_email_is_not_social (text : string) :
  social (extract_email text) = false
  /\ (extract_email text = ""
      \/ In (extract_email text) (findall email_re text)).
Proof.
  unfold extract_email.
  destruct (List.find (fun e => negb (social e)) (findall email_re text))
    as [e|] eqn:Hfind; simpl.
  - apply find_some in Hfind as [Hin Hsocial].
    split; [by apply negb_true_iff|by right].
  - split; [done|by left].
Qed.

(** X4.  The phone number extracted from a text is the first match of the
    first fragment (between slashes and commas) that has one. *)
Theorem tel_is_first_match_of_first_fragment
    (w : world) (text state_ut : string) (before after : list string)
    (raw m : string) (ms : list string)
    (Hsplit : split_on (one_of "/,") text = before ++ raw :: after)
    (Hbefore : forall r, In r before -> phone_matches w r = [])
    (Hraw : phone_matches w raw = m :: ms)
    (Hm : m <> "") :
  Tel (DataAugmentation.extract_info w text state_ut) = m
  /\ Tel (DataScrap.extract_info w text state_ut) = m.
Proof.
  assert (extract_tel w (split_on (one_of "/,") text) = m) as Htel.
  { rewrite Hsplit. clear Hsplit.
    induction before as [|r before IH]; simpl.
    - rewrite Hraw. simpl. by destruct m.
    - rewrite (Hbefore r) by (by left). simpl.
      apply IH. intros r' Hr'. apply Hbefore. by right. }
  unfold DataAugmentation.extract_info, DataScrap.extract_info.
  destruct (DataAugmentation.scan_addresses _ _ _ _),
    (DataScrap.scan_lines _ _ _ _).
  by simpl.
Qed.

Lemma tel_is_first_match_of_first_fragment_witness :
  Tel (DataAugmentation.extract_info phone_world phone_text "Delhi")
  = "+91 11 2345 6789"
  /\ Tel (DataScrap.extract_info phone_world phone_text "Delhi")
     = "+91 11 2345 6789".
Proof.
  apply (tel_is_first_match_of_first_fragment phone_world phone_text "Delhi"
           ["Green Valley School"; " Delhi "] [] " Tel: 011 2345 6789"
           "+91 11 2345 6789" []).
  - reflexivity.
  - intros r [<-|[<-|[]]]; reflexivity.
  - reflexivity.
  - discriminate.
Defined.

Lemma to_lower_comma (c : ascii) :
  Ascii.eqb (to_lower c) "," = Ascii.eqb c ",".
Proof. by destruct c as [[] [] [] [] [] [] [] []]. Qed.

Lemma to_upper_comma (c : ascii) :
  Ascii.eqb (to_upper c) "," = Ascii.eqb c ",".
Proof. by destruct c as [[] [] [] [] [] [] [] []]. Qed.

Lemma title_from_lacks_comma (s : string) :
  forall prev_cased,
    lacks "," s = true -> lacks "," (title_from prev_cased s) = true.
Proof.
  induction s as [|c s IH]; intros prev_cased; simpl; [done|].
  intros [Hc Hs]%andb_prop. rewrite IH by done.
  destruct prev_cased; [rewrite to_lower_comma|rewrite to_upper_comma];
    by rewrite Hc.
Qed.

Lemma last_split_lacks_comma (s : string) :
  lacks "," (default "" (last (split_on (Ascii.eqb ",") s))) = true.
Proof.
  pose proof (split_on_lacks "," s) as Hall.
  destruct (last (split_on (Ascii.eqb ",") s)) as [piece|] eqn:Hlast; [|done].
  rewrite Forall_forall in Hall. apply Hall.
  by apply last_Some_elem_of.
Qed.

(** X5.  Under the richer policy the District is a single segment: it never
    holds a comma. *)
Theorem rich_district_has_no_comma (w : world) (text state_ut : string) :
  lacks "," (District (DataAugmentation.extract_info w text state_ut)) = true.
Proof.
  unfold DataAugmentation.extract_info.
  destruct (DataAugmentation.scan_addresses state_ut (text_lines text) "" [])
    as [address candidates].
  simpl. unfold DataAugmentation.extract_district.
  destruct (truthy (DataAugmentation.district_line (text_lines text))).
  - set (stripped := sub DataAugmentation.boilerplate ""
                       (DataAugmentation.district_line (text_lines text))).
    destruct (last (List.filter truthy
                      (map strip (split_on (Ascii.eqb ",") stripped))))
      as [part|] eqn:Hlast; [|done].
    apply title_from_lacks_comma.
    apply last_Some_elem_of, list_elem_of_In, filter_In in Hlast as [Hin _].
    apply in_map_iff in Hin as (piece & <- & Hpiece).
    apply strip_lacks.
    pose proof (split_on_lacks "," stripped) as Hall.
    rewrite Forall_forall in Hall. apply Hall. by apply list_elem_of_In.
  - destruct candidates as [|addr_line rest]; [done|].
    destruct (search_group _ addr_line) as [g|]; [|done].
    apply title_from_lacks_comma, strip_lacks, last_split_lacks_comma.
Qed.

(** ** Website search: bounded retrying *)

Lemma search_loop_bounded (w : world) (query name : string) (retries : nat) :
  forall remaining, remaining <= retries ->
    let evs := (search_loop w query name retries remaining).2 in
    length (requests evs) <= remaining
    /\ (0 < remaining -> 0 < length (requests evs))
    /\ sleeps evs = replicate (length (requests evs) - 1) 2.
Proof.
  induction remaining as [|remaining IH]; intros Hle; simpl.
  - split; [done|]. split; [lia|done].
  - destruct (bool_decide (response_websites
                (search_api w query (retries - S remaining)) = [])); simpl.
    + specialize (IH ltac:(lia)).
      destruct (search_loop w query name retries remaining) as [found evs].
      simpl in *. destruct IH as (Hlen & Hpos & Hsleeps).
      set (failed := match search_api w query (retries - S remaining) with
                     | SearchFailed => _
                     | SearchJson _ => _
                     end).
      assert (sleeps failed = [] /\ requests failed = []) as [Hfs Hfr]
        by (subst failed; destruct (search_api w query (retries - S remaining));
              split; reflexivity).
      change (S (length (requests (failed ++
                (if (retries - S remaining <? retries - 1)%nat
                 then [Sleep 2] else []) ++ evs))) <= S remaining
              /\ (0 < S remaining ->
                  0 < S (length (requests (failed ++
                     (if (retries - S remaining <? retries - 1)%nat
                      then [Sleep 2] else []) ++ evs))))
              /\ sleeps (failed ++
                   (if (retries - S remaining <? retries - 1)%nat
                    then [Sleep 2] else []) ++ evs)
                 = replicate (S (length (requests (failed ++
                     (if (retries - S remaining <? retries - 1)%nat
                      then [Sleep 2] else []) ++ evs))) - 1) 2).
      rewrite !requests_app, !sleeps_app, Hfs, Hfr, Hsleeps.
      destruct (Nat.ltb_spec (retries - S remaining) (retries - 1)) as [Hlt|Hge];
        simpl.
      * split; [lia|]. split; [lia|].
        assert (0 < length (requests evs)) as Hone by (apply Hpos; lia).
        rewrite Nat.sub_0_r.
        destruct (length (requests evs)) as [|k]; [lia|].
        simpl. by rewrite Nat.sub_0_r.
      * assert (remaining = 0) as -> by lia.
        assert (length (requests evs) = 0) as -> by lia.
        split; [lia|]. split; [lia|done].
    + split; [lia|]. split; [lia|done].
Qed.

(** X14.  A search makes at most [retries] requests, at least one when
    [retries] is positive, and it sleeps once less often than it asks,
    2 units each time. *)
Theorem search_makes_bounded_requests
    (w : world) (school_name state_ut : string) (retries : nat) :
  let evs := (search_school_websites w school_name state_ut retries).2 in
  length (requests evs) <= retries
  /\ (0 < retries -> 0 < length (requests evs))
  /\ sleeps evs = replicate (length (requests evs) - 1) 2.
Proof. apply search_loop_bounded. done. Qed.

(** ** The duplicate check *)

Lemma field_matches_key (r : record) (key x y : string) :
  lower (strip x) = lower (strip y) ->
  field_matches r key x = field_matches r key y.
Proof. intros Hxy. unfold field_matches. by rewrite Hxy. Qed.

(** X15.  The duplicate check sees a name and a state through their identity
    key only: two pairs with the same key get the same answer, or the
    same exception, on every checkpoint. *)
Theorem duplicate_check_depends_on_identity_key
    (processed_data : list record) (school state school' state' : string)
    (Hkey : identity_key school state = identity_key school' state') :
  is_already_processed processed_data school state
  = is_already_processed processed_data school' state'.
Proof.
  unfold identity_key in Hkey. injection Hkey as Hschool Hstate.
  induction processed_data as [|r rest IH]; simpl; [done|].
  rewrite (field_matches_key r "School" school school') by done.
  rewrite (field_matches_key r "State/UT" state state') by done.
  by rewrite IH.
Qed.

Lemma duplicate_check_depends_on_identity_key_witness :
  is_already_processed [green_valley] "  GREEN valley SCHOOL" "delhi "
  = is_already_processed [green_valley] "Green Valley School" "Delhi".
Proof.
  apply (duplicate_check_depends_on_identity_key [green_valley]).
  vm_compute. reflexivity.
Defined.

(** ** The orchestrator: searching, appending and saving go together *)

Lemma saves_app (a b : list event) : saves (a ++ b) = saves a ++ saves b.
Proof. apply omap_app. Qed.

Lemma searches_app (a b : list event) :
  searches (a ++ b) = searches a || searches b.
Proof. apply existsb_app. Qed.

Lemma search_loop_saves_nothing (w : world) (query name : string) (retries : nat) :
  forall remaining, saves (search_loop w query name retries remaining).2 = [].
Proof.
  induction remaining as [|remaining IH]; simpl; [done|].
  destruct (bool_decide (response_websites
              (search_api w query (retries - S remaining)) = [])); simpl; [|done].
  destruct (search_loop w query name retries remaining) as [found evs].
  simpl in *. 
  change (saves (match search_api w query (retries - S remaining) with
                 | SearchFailed => [LogSearchFailed (retries - S remaining + 1) name]
                 | SearchJson _ => []
                 end ++
                 (if (retries - S remaining <? retries - 1)%nat
                  then [Sleep 2] else []) ++ evs) = []).
  rewrite !saves_app, IH.
  by destruct (search_api w query (retries - S remaining)),
       (retries - S remaining <? retries - 1)%nat.
Qed.

Lemma requests_searches (evs : list event) :
  0 < length (requests evs) -> searches evs = true.
Proof.
  induction evs as [|e evs IH]; simpl; [lia|].
  destruct e; simpl; try done; apply IH.
Qed.

Section OrchestratorTraces.

Variable scrape : world -> string -> string -> page_info.
Variable w : world.

(** The three ways a call of [process_school] ends. *)
Lemma process_school_cases (processed_data : list record) (row_data : record)
    (index total : nat) :
  let st := process_school scrape w processed_data row_data index total in
  (exists e, outcome st = Raise e /\ data st = processed_data /\ trace st = [])
  \/ (outcome st = Ret tt /\ data st = processed_data
      /\ searches (trace st) = false /\ saves (trace st) = [])
  \/ (outcome st = Ret tt /\ (exists r, data st = processed_data ++ [r])
      /\ searches (trace st) = true /\ saves (trace st) = [data st]).
Proof.
  simpl. unfold process_school.
  destruct (row_data !! "School") as [school|]; [|left; by eexists].
  destruct (row_data !! "State/UT") as [state|]; [|left; by eexists].
  destruct (is_already_processed _ _ _) as [[]|e];
    [right; left; done| |left; by eexists].
  right; right.
  pose proof (Hbound :=
    search_loop_bounded w (query_text (clean_cell school) (clean_cell state))
      (join " " (split_ws (clean_cell school))) 5 5 (le_n _)).
  pose proof (search_loop_saves_nothing w
                (query_text (clean_cell school) (clean_cell state))
                (join " " (split_ws (clean_cell school))) 5 5) as Hsaves.
  unfold search_school_websites.
  destruct (search_loop w _ _ 5 5) as [websites searched].
  simpl in *. destruct Hbound as (_ & Hpos & _).
  assert (searches searched = true) as Hsearched
    by (apply requests_searches, Hpos; lia).
  destruct websites as [|first others]; simpl.
  - split; [done|]. split; [by eexists|].
    rewrite searches_app, Hsearched, saves_app, Hsaves. done.
  - split; [done|]. split; [by eexists|].
    rewrite searches_app, Hsearched, saves_app, Hsaves. done.
Qed.

End OrchestratorTraces.

(** X19.  A call of [process_school] asks the search service exactly when it
    appends a record, and it writes the checkpoint file exactly then,
    once, with the list as it is after the append.  A call that raises
    leaves the list as it was and no trace. *)
Theorem search_append_and_save_go_together
    (scrape : world -> string -> string -> page_info) (w : world)
    (processed_data : list record) (row_data : record) (index total : nat) :
  let st := process_school scrape w processed_data row_data index total in
  (searches (trace st) = true <-> exists r, data st = processed_data ++ [r])
  /\ saves (trace st)
     = (if searches (trace st) then [data st] else [])
  /\ (forall e, outcome st = Raise e ->
        data st = processed_data /\ trace st = []).
Proof.
  simpl.
  assert (forall r : record, processed_data <> processed_data ++ [r]) as Hgrow.
  { intros r Hr. apply (f_equal length) in Hr.
    rewrite length_app in Hr. simpl in Hr. lia. }
  destruct (process_school_cases scrape w processed_data row_data index total)
    as [(e & Ho & Hd & Ht)|[(Ho & Hd & Hs & Hv)|(Ho & [r Hd] & Hs & Hv)]].
  - rewrite Ht, Hd. simpl. split; [|done].
    split; [done|]. intros [r Hr]. by apply Hgrow in Hr.
  - rewrite Hs, Hv, Hd, Ho. split; [|split; [done|by intros]].
    split; [done|]. intros [r Hr]. by apply Hgrow in Hr.
  - rewrite Hs, Hv, Ho. split; [|split; [done|by intros]].
    split; [by exists r|done].
Qed.

(** X20.  The five enrichment fields of an appended record: Website is the
    first link the search found, or empty when it found none; District,
    Address, Tel and Email are those of the merge over the sites found,
    in order. *)
Theorem appended_record_enrichment
    (scrape : world -> string -> string -> page_info) (w : world)
    (processed_data : list record) (row_data r : record)
    (index total : nat) (school state : value)
    (Hschool : row_data !! "School" = Some school)
    (Hstate : row_data !! "State/UT" = Some state)
    (Happended : data (process_school scrape w processed_data row_data index total)
                 = processed_data ++ [r]) :
  let found := (search_school_websites w (clean_cell school) (clean_cell state) 5).1 in
  let merged := merge_sites scrape w (clean_cell state) found in
  r !! "Website" = Some (VStr (default "" (head found)))
  /\ r !! "District" = Some (VStr (District merged))
  /\ r !! "Address" = Some (VStr (Address merged))
  /\ r !! "Tel" = Some (VStr (Tel merged))
  /\ r !! "Email" = Some (VStr (Email merged)).
Proof.
  rewrite process_school_data, Hschool, Hstate in Happended.
  assert (forall l : list record, l <> l ++ [r]) as Hgrow.
  { intros l Hl. apply (f_equal length) in Hl.
    rewrite length_app in Hl. simpl in Hl. lia. }
  destruct (is_already_processed _ _ _) as [[]|];
    try (by apply Hgrow in Happended).
  apply app_inj_tail in Happended as [_ <-].
  unfold enriched_record, update_record, blank_enrichment.
  destruct ((search_school_websites w (clean_cell school) (clean_cell state) 5).1)
    as [|first others]; simpl.
  - repeat split; by simplify_map_eq.
  - repeat split; by simplify_map_eq.
Qed.

Lemma appended_record_enrichment_witness :
  let r := update_record
             (<["Website" := VStr school_site]> (blank_enrichment green_valley))
             (DataScrap.scrape_school_info school_world school_site "Delhi") in
  r !! "Website" = Some (VStr school_site)
  /\ r !! "District" = Some (VStr "")
  /\ r !! "Address" = Some (VStr "12 MG Road, Delhi")
  /\ r !! "Tel" = Some (VStr "")
  /\ r !! "Email" = Some (VStr "").
Proof.
  apply (appended_record_enrichment DataScrap.scrape_school_info school_world
           [] green_valley _ 0 1 (VStr "Green Valley School") (VStr "Delhi"));
    vm_compute; reflexivity.
Defined.

(** ** The run: bounds, rows that raise, and running again *)

(** X22.  After a run the checkpoint holds at most as many records as the
    larger of the checkpoint it started from and the roster. *)
Theorem run_checkpoint_is_bounded
    (scrape : world -> string -> string -> page_info) (w : world)
    (processed_data rows : list record) :
  length (run scrape w processed_data rows).1
  <= length processed_data `max` length rows.
Proof.
  unfold run.
  destruct (run_rows_grows scrape w (length processed_data) (length rows) rows
              0 processed_data) as (new & Hfinal & Hlen).
  pose proof (run_rows_indices scrape w (length processed_data) (length rows)
                rows 0 processed_data) as Hidx.
  apply (f_equal length) in Hidx.
  rewrite length_map, length_seq in Hidx.
  rewrite Hfinal, length_app. simpl in *. lia.
Qed.

Lemma is_already_processed_text (processed_data : list record)
    (school_name state_ut : string) :
  forallb text_keyed processed_data = true ->
  is_already_processed processed_data school_name state_ut
  = Ret (existsb (same_identity school_name state_ut) processed_data).
Proof.
  induction processed_data as [|r rest IH]; simpl; [done|].
  intros [[Hschool Hstate]%andb_prop Hrest]%andb_prop.
  rewrite (field_matches_text r "School") by done.
  rewrite (field_matches_text r "State/UT") by done.
  rewrite IH by done. unfold same_identity, identity_key.
  destruct (bool_decide_reflect
              (lower (strip (text_of r "School")) = lower (strip school_name)))
    as [Hs|Hs];
    [destruct (bool_decide_reflect
                 (lower (strip (text_of r "State/UT")) = lower (strip state_ut)))
       as [Ht|Ht]|].
  - by rewrite bool_decide_eq_true_2 by (by rewrite Hs, Ht).
  - by rewrite bool_decide_eq_false_2 by (intros [=]; done).
  - by rewrite bool_decide_eq_false_2 by (intros [=]; done).
Qed.

Section RunningAgain.

Variable scrape : world -> string -> string -> page_info.
Variable w : world.

(** A row found in the checkpoint is skipped. *)
Lemma present_is_skipped (processed_data : list record) (row_data : record)
    (index total : nat) :
  present processed_data row_data ->
  let st := process_school scrape w processed_data row_data index total in
  data st = processed_data /\ searches (trace st) = false.
Proof.
  intros (school & state & Hschool & Hstate & Hdup). simpl.
  unfold process_school. by rewrite Hschool, Hstate, Hdup.
Qed.

(** A row found in a checkpoint is found in every extension of it. *)
Lemma present_extends (processed_data more : list record) (row_data : record) :
  forallb text_keyed (processed_data ++ more) = true ->
  present processed_data row_data ->
  present (processed_data ++ more) row_data.
Proof.
  intros Htext (school & state & Hschool & Hstate & Hdup).
  exists school, state. split; [done|]. split; [done|].
  rewrite is_already_processed_text by done.
  rewrite forallb_app in Htext. apply andb_prop in Htext as [Hpd _].
  rewrite is_already_processed_text in Hdup by done.
  injection Hdup as Hdup. by rewrite existsb_app, Hdup.
Qed.

(** Once a plain row went through [process_school] it is found in the
    checkpoint. *)
Lemma processed_is_present (processed_data : list record) (row_data : record)
    (index total : nat) :
  forallb text_keyed processed_data = true ->
  plain_row row_data = true ->
  let st := process_school scrape w processed_data row_data index total in
  present (data st) row_data /\ forallb text_keyed (data st) = true.
Proof.
  intros Htext [Hschool Hstate]%andb_prop. simpl.
  rewrite process_school_data. unfold present.
  destruct (row_data !! "School") as [[school|]|] eqn:Hs; try done.
  destruct (row_data !! "State/UT") as [[state|]|] eqn:Ht; try done.
  simpl in Hschool, Hstate.
  destruct (is_already_processed processed_data (clean_cell (VStr school))
              (clean_cell (VStr state))) as [[]|e] eqn:Hdup.
  - split; [|done]. by exists (VStr school), (VStr state).
  - set (r := enriched_record scrape w row_data (clean_cell (VStr school))
                (clean_cell (VStr state))).
    assert (r !! "School" = Some (VStr school)
            /\ r !! "State/UT" = Some (VStr state)) as [Hrs Hrt].
    { subst r. unfold enriched_record, update_record, blank_enrichment.
      destruct ((search_school_websites w _ _ 5).1); by simplify_map_eq. }
    assert (forallb text_keyed (processed_data ++ [r]) = true) as Htext'.
    { rewrite forallb_app, Htext. simpl. unfold text_keyed.
      by rewrite Hrs, Hrt. }
    split; [|done].
    exists (VStr school), (VStr state). split; [done|]. split; [done|].
    rewrite is_already_processed_text by done.
    rewrite existsb_app. simpl.
    assert (same_identity (clean_cell (VStr school)) (clean_cell (VStr state)) r
            = true) as ->; [|by rewrite orb_true_r].
    unfold same_identity, identity_key, text_of, clean_cell.
    rewrite Hrs, Hrt. simpl.
    rewrite !replace_char_lacks by done.
    by rewrite !strip_idem, bool_decide_eq_true_2.
  - rewrite is_already_processed_text in Hdup by done. discriminate.
Qed.

(** After the loop every plain row from [start_index] on is found in
    the checkpoint. *)
Lemma run_rows_leaves_present (start_index total : nat) (rows : list record) :
  forall index processed_data,
    forallb text_keyed processed_data = true ->
    forallb plain_row rows = true ->
    let final := (run_rows scrape w start_index total index rows processed_data).1 in
    forallb text_keyed final = true
    /\ (exists new, final = processed_data ++ new)
    /\ (forall j row_data,
          rows !! j = Some row_data -> start_index <= index + j ->
          present final row_data).
Proof.
  induction rows as [|row rest IH]; intros index processed_data Htext Hrows;
    simpl.
  - split; [done|]. split; [exists []; by rewrite app_nil_r|]. by intros.
  - simpl in Hrows. apply andb_prop in Hrows as [Hrow Hrest].
    destruct (Nat.ltb_spec index start_index) as [Hlt|Hge].
    + destruct (IH (S index) processed_data Htext Hrest) as (Ht & Hnew & Hpresent).
      split; [done|]. split; [done|].
      intros [|j] row_data Hj Hstart; [lia|].
      apply (Hpresent j); [done|lia].
    + destruct (processed_is_present processed_data row index total Htext Hrow)
        as [Hhere Htext1].
      specialize (IH (S index)
        (data (process_school scrape w processed_data row index total))
        Htext1 Hrest).
      destruct (process_school_grows scrape w processed_data row index total)
        as [Hsame|[r Hone]];
      destruct (run_rows scrape w start_index total (S index) rest _)
        as [final log]; simpl in *;
      destruct IH as (Ht & [new Hnew] & Hpresent).
      * split; [done|]. rewrite Hsame in Hnew. split; [by exists new|].
        intros [|j] row_data Hj Hstart.
        -- injection Hj as <-. rewrite Hnew. rewrite Hsame in Hhere.
           apply present_extends; [by rewrite <- Hnew|done].
        -- apply (Hpresent j); [done|lia].
      * split; [done|]. rewrite Hone in Hnew.
        split; [exists (r :: new); by rewrite Hnew, <- app_assoc|].
        intros [|j] row_data Hj Hstart.
        -- injection Hj as <-. rewrite Hnew. rewrite Hone in Hhere.
           apply present_extends; [by rewrite <- Hnew|done].
        -- apply (Hpresent j); [done|lia].
Qed.

(** A loop over rows that are all found in the checkpoint changes
    nothing and asks nothing. *)
Lemma run_rows_all_present (start_index total : nat) (rows : list record)
    (processed_data : list record) :
  forall index,
    (forall j row_data,
       rows !! j = Some row_data -> start_index <= index + j ->
       present processed_data row_data) ->
    let res := run_rows scrape w start_index total index rows processed_data in
    res.1 = processed_data
    /\ Forall (fun entry => searches entry.2 = false) res.2.
Proof.
  induction rows as [|row rest IH]; intros index Hpresent; simpl; [done|].
  destruct (Nat.ltb_spec index start_index) as [Hlt|Hge].
  - apply IH. intros j row_data Hj Hstart. apply (Hpresent (S j)); [done|lia].
  - destruct (present_is_skipped processed_data row index total
                (Hpresent 0 row eq_refl ltac:(lia))) as [Hdata Hquiet].
    rewrite Hdata.
    specialize (IH (S index)
      (fun j row_data Hj Hstart => Hpresent (S j) row_data Hj ltac:(lia))).
    destruct (run_rows scrape w start_index total (S index) rest processed_data)
      as [final log].
    simpl in *. destruct IH as [-> Hlog]. split; [done|].
    constructor; [|done]. simpl.
    rewrite searches_app, Hquiet.
    by destruct (outcome (process_school scrape w processed_data row index total)).
Qed.

End RunningAgain.

(** X23.  Running again is idle.  When the checkpoint holds text in its
    identity columns and every roster row has a School and a State/UT
    cell that are text without a newline, a second run over the same
    roster, from the checkpoint the first run left and whatever the
    world has become, leaves that checkpoint as it is and sends no
    request to the search service. *)
Theorem second_run_changes_nothing
    (scrape scrape' : world -> string -> string -> page_info) (w w' : world)
    (processed_data rows : list record)
    (Htext : forallb text_keyed processed_data = true)
    (Hrows : forallb plain_row rows = true) :
  let final := (run scrape w processed_data rows).1 in
  let again := run scrape' w' final rows in
  again.1 = final
  /\ Forall (fun entry => searches entry.2 = false) again.2.
Proof.
  simpl. unfold run.
  destruct (run_rows_leaves_present scrape w (length processed_data)
              (length rows) rows 0 processed_data Htext Hrows)
    as (_ & [new Hnew] & Hpresent).
  apply run_rows_all_present.
  intros j row_data Hj Hstart. apply (Hpresent j); [done|].
  fold (run scrape w processed_data rows) in Hstart.
  unfold run in Hstart. rewrite Hnew, length_app in Hstart. simpl in *. lia.
Qed.

Lemma second_run_changes_nothing_witness :
  let rows := [green_valley; hilltop; green_valley] in
  let final := (run DataAugmentation.scrape_school_info school_world [] rows).1 in
  let again := run DataScrap.scrape_school_info offline final rows in
  again.1 = final
  /\ Forall (fun entry => searches entry.2 = false) again.2.
Proof.
  apply (second_run_changes_nothing DataAugmentation.scrape_school_info
           DataScrap.scrape_school_info school_world offline []
           [green_valley; hilltop; green_valley]);
    vm_compute; reflexivity.
Defined.

Lemma run_rows_without_school
    (scrape : world -> string -> string -> page_info) (w : world)
    (start_index total : nat) (rows : list record) (processed_data : list record) :
  (forall row_data, In row_data rows -> row_data !! "School" = None) ->
  forall index,
    let res := run_rows scrape w start_index total index rows processed_data in
    res.1 = processed_data
    /\ Forall (fun entry => entry.2 = [LogRowError entry.1 (KeyError "School")])
         res.2.
Proof.
  induction rows as [|row rest IH]; intros Hmissing index; simpl; [done|].
  assert (forall row_data, In row_data rest -> row_data !! "School" = None)
    as Hrest by (intros r Hr; apply Hmissing; by right).
  destruct (index <? start_index)%nat; [by apply IH|].
  assert (process_school scrape w processed_data row index total
          = Step (Raise (KeyError "School")) processed_data []) as ->
    by (unfold process_school; by rewrite (Hmissing row) by (by left)).
  cbn [data outcome trace].
  specialize (IH Hrest (S index)).
  destruct (run_rows scrape w start_index total (S index) rest processed_data)
    as [final log].
  simpl in *. destruct IH as [-> Hlog]. split; [done|].
  by constructor.
Qed.

(** X24.  A roster without a School column stops nothing and changes nothing:
    every row handed to the orchestrator raises [KeyError], the run logs
    that error for the row and nothing else, and it ends with the
    checkpoint it started from. *)
Theorem roster_without_school_column_changes_nothing
    (scrape : world -> string -> string -> page_info) (w : world)
    (processed_data rows : list record)
    (Hmissing : forall row_data, In row_data rows -> row_data !! "School" = None) :
  let res := run scrape w processed_data rows in
  res.1 = processed_data
  /\ Forall (fun entry => entry.2 = [LogRowError entry.1 (KeyError "School")])
       res.2
  /\ length res.2 = length rows - length processed_data.
Proof.
  simpl. unfold run.
  destruct (run_rows_without_school scrape w (length processed_data)
              (length rows) rows processed_data Hmissing 0) as [Hdata Hlog].
  split; [done|]. split; [done|].
  pose proof (run_rows_indices scrape w (length processed_data) (length rows)
                rows 0 processed_data) as Hidx.
  apply (f_equal length) in Hidx.
  rewrite length_map, length_seq in Hidx. simpl in Hidx. lia.
Qed.

Lemma roster_without_school_column_changes_nothing_witness :
  let res := run DataScrap.scrape_school_info school_world [green_valley]
               [nameless; nameless; nameless] in
  res.1 = [green_valley]
  /\ Forall (fun entry => entry.2 = [LogRowError entry.1 (KeyError "School")])
       res.2
  /\ length res.2 = 2.
Proof.
  apply (roster_without_school_column_changes_nothing
           DataScrap.scrape_school_info school_world [green_valley]
           [nameless; nameless; nameless]).
  intros row_data [<-|[<-|[<-|[]]]]; reflexivity.
Defined.

(** ** The page scraper: links that cannot be joined *)

(** X10.  After a followed link that [urljoin] rejects no further link is
    followed: the links behind it do not matter to either scraper. *)
Theorem unjoinable_link_ends_the_scrape
    (w : world) (url state_ut : string) (before after : list string)
    (href : string) (info : page_info) (addresses : list string)
    (Hlink : is_contact_link href = true)
    (Hjoin : resolve w url href = None) :
  DataAugmentation.follow_links w url state_ut (before ++ href :: after) info
  = DataAugmentation.follow_links w url state_ut (before ++ [href]) info
  /\ DataScrap.follow_links w url state_ut (before ++ href :: after) info addresses
     = DataScrap.follow_links w url state_ut (before ++ [href]) info addresses.
Proof.
  split.
  - revert info. induction before as [|h rest IH]; intros info; simpl.
    + by rewrite Hlink, Hjoin.
    + destruct (is_contact_link h); [|apply IH].
      destruct (resolve w url h) as [target|]; [|done].
      destruct (web w target); apply IH.
  - revert info addresses.
    induction before as [|h rest IH]; intros info addresses; simpl.
    + by rewrite Hlink, Hjoin.
    + destruct (is_contact_link h); [|apply IH].
      destruct (resolve w url h) as [target|]; [|done].
      destruct (web w target); apply IH.
Qed.

(** ** The page scraper of [data_scrap.py] *)

Lemma simple_follow_links_address (w : world) (url state_ut : string)
    (links : list string) :
  forall info addresses,
    Address (DataScrap.follow_links w url state_ut links info addresses).1
    = Address info.
Proof.
  induction links as [|href rest IH]; intros info addresses; simpl; [done|].
  destruct (is_contact_link href); [|apply IH].
  destruct (resolve w url href) as [target|]; [|done].
  destruct (web w target); by rewrite IH.
Qed.

Lemma merge_contacts_sticky (f : field) (info new_info : page_info) :
  f <> FAddress ->
  truthy (get f info) = true ->
  get f (DataScrap.merge_contacts info new_info) = get f info.
Proof. destruct f; simpl; try done; intros _; apply keep_first_sticky. Qed.

Lemma simple_follow_links_sticky (w : world) (url state_ut : string)
    (links : list string) (f : field) :
  f <> FAddress ->
  forall info addresses,
    truthy (get f info) = true ->
    get f (DataScrap.follow_links w url state_ut links info addresses).1
    = get f info.
Proof.
  intros Hf. induction links as [|href rest IH]; intros info addresses Hset;
    simpl; [done|].
  destruct (is_contact_link href); [|by apply IH].
  destruct (resolve w url href) as [target|]; [|done].
  destruct (web w target) as [| | |sub_page]; try by apply IH.
  rewrite IH; rewrite merge_contacts_sticky; done.
Qed.

(** The links are followed to the end when each followed link joins,
    and then the collected addresses extend those collected before. *)
Lemma simple_follow_links_completes (w : world) (url state_ut : string)
    (links : list string) :
  (forall href, In href links -> is_contact_link href = true ->
     resolve w url href <> None) ->
  forall info addresses,
    exists more,
      (DataScrap.follow_links w url state_ut links info addresses).2
      = Some (addresses ++ more).
Proof.
  induction links as [|href rest IH]; intros Hjoin info addresses; simpl.
  - exists []. by rewrite app_nil_r.
  - assert (forall h, In h rest -> is_contact_link h = true ->
              resolve w url h <> None) as Hrest
      by (intros h Hh; apply Hjoin; by right).
    destruct (is_contact_link href) eqn:Hlink; [|by apply IH].
    destruct (resolve w url href) as [target|] eqn:Hres;
      [|by destruct (Hjoin href (or_introl eq_refl) Hlink)].
    destruct (web w target) as [| | |sub_page]; try by apply IH.
    destruct (IH Hrest
                (DataScrap.merge_contacts info
                   (DataScrap.extract_info w (page_text sub_page) state_ut))
                (DataScrap.add_address addresses
                   (Address (DataScrap.extract_info w (page_text sub_page) state_ut))))
      as [more Hmore].
    rewrite Hmore. unfold DataScrap.add_address.
    destruct (truthy _).
    + eexists. by rewrite <- app_assoc.
    + by eexists.
Qed.

Lemma simple_follow_links_aborts (w : world) (url state_ut : string)
    (links : list string) :
  (exists href, In href links /\ is_contact_link href = true
                /\ resolve w url href = None) ->
  forall info addresses,
    (DataScrap.follow_links w url state_ut links info addresses).2 = None.
Proof.
  induction links as [|h rest IH]; intros (href & Hin & Hlink & Hjoin) info addresses.
  - destruct Hin.
  - simpl. destruct Hin as [->|Hin].
    + by rewrite Hlink, Hjoin.
    + assert (exists href, In href rest /\ is_contact_link href = true
                           /\ resolve w url href = None) as Hrest
        by (by exists href).
      destruct (is_contact_link h); [|by apply IH].
      destruct (resolve w url h) as [target|]; [|done].
      destruct (web w target); by apply IH.
Qed.

(** The de-duplicating loop: what it adds to [clean] is new, and each
    element is in [clean] or the cleaned form of an address. *)
Lemma clean_addresses_spec (addresses : list string) :
  forall clean,
    NoDup clean ->
    let result := DataScrap.clean_addresses addresses clean in
    NoDup result
    /\ (exists more, result = clean ++ more)
    /\ (forall a, In a result ->
          In a clean \/ exists raw, In raw addresses
                                    /\ a = DataScrap.clean_address raw).
Proof.
  induction addresses as [|addr rest IH]; intros clean Hclean.
  - simpl. split; [done|]. split; [exists []; by rewrite app_nil_r|]. by left.
  - cbv zeta.
    change (DataScrap.clean_addresses (addr :: rest) clean)
      with (DataScrap.clean_addresses rest
              (if bool_decide (DataScrap.clean_address addr ∈ clean)
               then clean else clean ++ [DataScrap.clean_address addr])).
    destruct (bool_decide_reflect (DataScrap.clean_address addr ∈ clean))
      as [Hin|Hout].
    + destruct (IH clean Hclean) as (Hnd & Hmore & Hfrom).
      split; [done|]. split; [done|].
      intros a Ha. destruct (Hfrom a Ha) as [?|(raw & Hraw & ->)]; [by left|].
      right. exists raw. split; [by right|done].
    + assert (NoDup (clean ++ [DataScrap.clean_address addr])) as Hclean'.
      { apply NoDup_app. split; [done|]. split.
        - intros x Hx Hx'. apply list_elem_of_singleton in Hx'. by subst x.
        - apply NoDup_singleton. }
      destruct (IH _ Hclean') as (Hnd & [more Hmore] & Hfrom).
      split; [done|].
      split; [exists (DataScrap.clean_address addr :: more);
              by rewrite Hmore, <- app_assoc|].
      intros a Ha. destruct (Hfrom a Ha) as [Hc|(raw & Hraw & ->)].
      * apply in_app_or in Hc as [?|[<-|[]]]; [by left|].
        right. exists addr. split; [by left|done].
      * right. exists raw. split; [by right|done].
Qed.

(** X11.  In [data_scrap.py] the Tel, the Email and the District that the main
    page yields are the ones the scraper returns, whatever the subpages
    yield. *)
Theorem simple_scraper_prefers_main_page
    (w : world) (url state_ut : string) (p : page) (f : field)
    (Hpage : web w url = Fetched p)
    (Hfield : f <> FAddress)
    (Hset : truthy (get f (DataScrap.extract_info w (page_text p) state_ut)) = true) :
  get f (DataScrap.scrape_school_info w url state_ut)
  = get f (DataScrap.extract_info w (page_text p) state_ut).
Proof.
  unfold DataScrap.scrape_school_info. rewrite Hpage.
  set (main := DataScrap.extract_info w (page_text p) state_ut) in *.
  set (addresses := DataScrap.add_address _ _).
  assert (get f (DataScrap.merge_contacts empty_info main) = get f main) as Hmain
    by (destruct f; simpl in *; try done; unfold keep_first; simpl;
        by rewrite Hset).
  pose proof (simple_follow_links_sticky w url state_ut (hrefs p) f Hfield
                (DataScrap.merge_contacts empty_info main) addresses) as Hkeep.
  rewrite Hmain in Hkeep. specialize (Hkeep Hset).
  destruct (DataScrap.follow_links w url state_ut (hrefs p) _ addresses)
    as [info [collected|]]; simpl in Hkeep; [|done].
  by destruct f.
Qed.

Lemma simple_scraper_prefers_main_page_witness :
  get FEmail (DataScrap.scrape_school_info hilltop_world
                "https://hilltop.example" "Delhi")
  = get FEmail (DataScrap.extract_info hilltop_world
                  "Write to office@hilltop.example" "Delhi").
Proof.
  apply (simple_scraper_prefers_main_page hilltop_world "https://hilltop.example"
           "Delhi" (Page None "Write to office@hilltop.example" ["/contact"])
           FEmail); [reflexivity|discriminate|reflexivity].
Defined.

(** X12.  In [data_scrap.py], when every followed link joins, the Address of
    a page with a structured location element is a list of distinct
    cleaned addresses joined by " | ", the structured one first. *)
Theorem simple_scraper_puts_structured_address_first
    (w : world) (url state_ut loc_text : string) (p : page)
    (Hpage : web w url = Fetched p)
    (Hloc : loc_icon p = Some loc_text)
    (Hjoin : forall href, In href (hrefs p) -> is_contact_link href = true ->
               resolve w url href <> None) :
  exists others,
    Address (DataScrap.scrape_school_info w url state_ut)
    = join " | " (DataScrap.clean_address loc_text :: others)
    /\ NoDup (DataScrap.clean_address loc_text :: others)
    /\ (forall a, In a others -> exists raw, a = DataScrap.clean_address raw).
Proof.
  unfold DataScrap.scrape_school_info. rewrite Hpage, Hloc.
  set (main := DataScrap.extract_info w (page_text p) state_ut).
  destruct (simple_follow_links_completes w url state_ut (hrefs p) Hjoin
              (DataScrap.merge_contacts empty_info main)
              (DataScrap.add_address [loc_text] (Address main)))
    as [more Hmore].
  destruct (DataScrap.follow_links w url state_ut (hrefs p) _ _)
    as [info collected]. simpl in Hmore. subst collected. simpl.
  assert (exists tail,
            DataScrap.add_address [loc_text] (Address main) ++ more
            = loc_text :: tail) as [tail ->]
    by (unfold DataScrap.add_address; destruct (truthy (Address main));
        by eexists).
  change (DataScrap.clean_addresses (loc_text :: tail) [])
    with (DataScrap.clean_addresses tail [DataScrap.clean_address loc_text]).
  destruct (clean_addresses_spec tail [DataScrap.clean_address loc_text]
              (NoDup_singleton _)) as (Hnd & [others Hothers] & Hfrom).
  cbv zeta in Hothers. simpl in Hothers.
  exists others. rewrite Hothers in Hnd, Hfrom |- *.
  split; [done|]. split; [done|].
  intros a Ha.
  destruct (Hfrom a (or_intror Ha)) as [[<-|[]]|(raw & _ & ->)]; by eexists.
Qed.

Lemma simple_scraper_puts_structured_address_first_witness :
  exists others,
    Address (DataScrap.scrape_school_info campus_world campus_site "Goa")
    = join " | " (DataScrap.clean_address "Campus Road | Panaji" :: others)
    /\ NoDup (DataScrap.clean_address "Campus Road | Panaji" :: others)
    /\ (forall a, In a others -> exists raw, a = DataScrap.clean_address raw).
Proof.
  apply (simple_scraper_puts_structured_address_first campus_world campus_site
           "Goa" "Campus Road | Panaji"
           (Page (Some "Campus Road | Panaji")
              (unlines ["Campus School"; "Campus Road | Panaji";
                                  "7 Campus Road, Panaji, Goa"])
              ["/contact-us"; "/gallery"])); [reflexivity|reflexivity|].
  intros href _ _. unfold resolve.
  destruct (startswith "http" href); intros Hnone; discriminate Hnone.
Defined.

(** X13.  In [data_scrap.py], when [urljoin] rejects a followed link, the
    scraper returns an empty Address, whatever addresses the page and
    its structured location element hold. *)
Theorem simple_scraper_loses_addresses_on_unjoinable_link
    (w : world) (url state_ut href : string) (p : page)
    (Hpage : web w url = Fetched p)
    (Hin : In href (hrefs p))
    (Hlink : is_contact_link href = true)
    (Hjoin : resolve w url href = None) :
  Address (DataScrap.scrape_school_info w url state_ut) = "".
Proof.
  unfold DataScrap.scrape_school_info. rewrite Hpage.
  set (main := DataScrap.extract_info w (page_text p) state_ut).
  set (addresses := DataScrap.add_address _ _).
  pose proof (simple_follow_links_aborts w url state_ut (hrefs p)
                (ex_intro _ href (conj Hin (conj Hlink Hjoin)))
                (DataScrap.merge_contacts empty_info main) addresses) as Habort.
  pose proof (simple_follow_links_address w url state_ut (hrefs p)
                (DataScrap.merge_contacts empty_info main) addresses) as Haddr.
  destruct (DataScrap.follow_links w url state_ut (hrefs p) _ addresses)
    as [info collected]. simpl in *. by subst collected.
Qed.

Lemma simple_scraper_loses_addresses_on_unjoinable_link_witness :
  Address (DataScrap.scrape_school_info unjoinable_world campus_site "Goa") = "".
Proof.
  apply (simple_scraper_loses_addresses_on_unjoinable_link unjoinable_world
           campus_site "Goa" "/contact-us"
           (Page (Some "Campus Road | Panaji")
              (unlines ["Campus School"; "Campus Road | Panaji";
                                  "7 Campus Road, Panaji, Goa"])
              ["/contact-us"; "/gallery"]));
    [reflexivity|by left|reflexivity|reflexivity].
Defined.

Lemma unjoinable_link_ends_the_scrape_witness :
  DataAugmentation.follow_links unjoinable_world campus_site "Goa"
    ([] ++ "/contact-us" :: ["/about"]) empty_info
  = DataAugmentation.follow_links unjoinable_world campus_site "Goa"
      ([] ++ ["/contact-us"]) empty_info
  /\ DataScrap.follow_links unjoinable_world campus_site "Goa"
       ([] ++ "/contact-us" :: ["/about"]) empty_info []
     = DataScrap.follow_links unjoinable_world campus_site "Goa"
         ([] ++ ["/contact-us"]) empty_info [].
Proof.
  apply (unjoinable_link_ends_the_scrape unjoinable_world campus_site "Goa"
           [] ["/about"] "/contact-us" empty_info []); reflexivity.
Defined.

Lemma structured_address_is_dropped_witness :
  DataAugmentation.scrape_school_info school_world school_site "Delhi"
  = DataAugmentation.follow_links school_world school_site "Delhi"
      (hrefs school_page)
      (DataAugmentation.extract_info school_world (page_text school_page) "Delhi").
Proof.
  apply (structured_address_is_dropped school_world school_site "Delhi" school_page).
  reflexivity.
Defined.

(** ** The orchestrator: names and the merge over the sites *)

Lemma replace_char_removes (a b : ascii) (s : string) :
  Ascii.eqb b a = false -> lacks a (replace_char a b s) = true.
Proof.
  intros Hb. unfold replace_char.
  induction s as [|c s IH]; simpl; [done|]. rewrite IH.
  destruct (Ascii.eqb c a) eqn:Hc; by rewrite ?Hb, ?Hc.
Qed.

(** X18.  The name and the state the orchestrator works with (in the
    duplicate check, the search query and the log) hold no newline and
    no white space at either end, whatever the cell of the roster holds. *)
Theorem cleaned_cell_is_normalised (v : value) :
  lacks nl (clean_cell v) = true /\ strip (clean_cell v) = clean_cell v.
Proof.
  unfold clean_cell. split.
  - by apply strip_lacks, replace_char_removes.
  - apply strip_idem.
Qed.

Lemma merge_sites_from (scrape : world -> string -> string -> page_info)
    (w : world) (state_ut : string) (f : field) (websites : list string) :
  forall merged_info,
    get f (foldl (fun merged_info url =>
                    merge_missing merged_info (scrape w url state_ut))
                 merged_info websites)
    = if truthy (get f merged_info) then get f merged_info
      else default ""
             (List.find truthy
                (map (fun url => get f (scrape w url state_ut)) websites)).
Proof.
  induction websites as [|url rest IH]; intros merged_info; simpl.
  - by destruct (get f merged_info).
  - rewrite IH.
    assert (get f (merge_missing merged_info (scrape w url state_ut))
            = keep_first (get f merged_info) (get f (scrape w url state_ut)))
      as -> by (by destruct f).
    unfold keep_first.
    destruct (truthy (get f merged_info)) eqn:Hold; simpl; [by rewrite Hold|].
    destruct (truthy (get f (scrape w url state_ut))) eqn:Hnew; simpl.
    + by rewrite Hnew.
    + by rewrite Hold.
Qed.

(** X21.  Across the candidate sites each field is taken from the first site,
    in the order of the search result, whose scrape yields a value for
    it; it is empty when no site yields one. *)
Theorem site_merge_takes_first_value_per_field
    (scrape : world -> string -> string -> page_info) (w : world)
    (state_ut : string) (websites : list string) (f : field) :
  get f (merge_sites scrape w state_ut websites)
  = default ""
      (List.find truthy
         (map (fun url => get f (scrape w url state_ut)) websites)).
Proof.
  unfold merge_sites. rewrite merge_sites_from. by destruct f.
Qed.

(** ** The duplicate check on a checkpoint in two parts *)

(** X16.  The duplicate check reads the checkpoint front to back: on two
    lists joined, the answer is that of the first list when it finds
    the school or raises, and that of the second list otherwise. *)
Theorem duplicate_check_reads_front_to_back
    (front back : list record) (school_name state_ut : string) :
  is_already_processed (front ++ back) school_name state_ut
  = match is_already_processed front school_name state_ut with
    | Ret false => is_already_processed back school_name state_ut
    | answer => answer
    end.
Proof.
  induction front as [|r rest IH]; simpl; [done|].
  destruct (field_matches r "School" school_name) as [[]|e]; try done.
  destruct (field_matches r "State/UT" state_ut) as [[]|e]; done.
Qed.

Lemma is_already_processed_app_raise (front : list record) (r : record)
    (school_name state_ut repr : string) :
  is_already_processed front school_name state_ut = Ret false ->
  r !! "School" = Some (VOther repr) ->
  is_already_processed (front ++ [r]) school_name state_ut = Raise AttributeError.
Proof.
  intros Hfront Hr. induction front as [|r' rest IH]; simpl in *.
  - unfold field_matches. by rewrite Hr.
  - destruct (field_matches r' "School" school_name) as [[]|e]; try done;
      [|by apply IH].
    destruct (field_matches r' "State/UT" state_ut) as [[]|e]; try done.
    by apply IH.
Qed.

(** X17.  A School cell that is not text blocks the rows behind it.  When a
    row whose School cell is a number or NaN has been appended, every
    later row that is not already in the checkpoint makes the duplicate
    check raise [AttributeError]: the row is not searched, nothing is
    appended and nothing is saved. *)
Theorem non_text_school_cell_blocks_later_rows
    (scrape : world -> string -> string -> page_info) (w : world)
    (processed_data : list record) (blocker row_data : record)
    (index total index' total' : nat) (repr : string) (state school state' : value)
    (Hblocker : blocker !! "School" = Some (VOther repr))
    (Hblocker_state : blocker !! "State/UT" = Some state)
    (Hnew : is_already_processed processed_data
              (clean_cell (VOther repr)) (clean_cell state) = Ret false)
    (Hschool : row_data !! "School" = Some school)
    (Hstate : row_data !! "State/UT" = Some state')
    (Hnew' : is_already_processed processed_data
               (clean_cell school) (clean_cell state') = Ret false) :
  let checkpoint :=
    data (process_school scrape w processed_data blocker index total) in
  let st := process_school scrape w checkpoint row_data index' total' in
  length checkpoint = S (length processed_data)
  /\ outcome st = Raise AttributeError
  /\ data st = checkpoint
  /\ trace st = [].
Proof.
  simpl. rewrite (process_school_data scrape w processed_data blocker).
  rewrite Hblocker, Hblocker_state, Hnew.
  set (r := enriched_record scrape w blocker (clean_cell (VOther repr))
              (clean_cell state)).
  assert (r !! "School" = Some (VOther repr)) as Hr.
  { subst r. unfold enriched_record, update_record, blank_enrichment.
    destruct ((search_school_websites w _ _ 5).1); by simplify_map_eq. }
  split; [rewrite length_app; simpl; lia|].
  unfold process_school. rewrite Hschool, Hstate.
  by rewrite (is_already_processed_app_raise processed_data r _ _ repr).
Qed.

Lemma non_text_school_cell_blocks_later_rows_witness :
  let checkpoint :=
    data (process_school DataAugmentation.scrape_school_info offline []
            unnamed_row 0 2) in
  let st := process_school DataAugmentation.scrape_school_info offline
              checkpoint green_valley 1 2 in
  length checkpoint = 1
  /\ outcome st = Raise AttributeError
  /\ data st = checkpoint
  /\ trace st = [].
Proof.
  apply (non_text_school_cell_blocks_later_rows
           DataAugmentation.scrape_school_info offline [] unnamed_row green_valley
           0 2 1 2 "nan" (VStr "Goa") (VStr "Green Valley School") (VStr "Delhi"));
    vm_compute; reflexivity.
Defined.

(** ** The district policies *)

Lemma simple_scan_district (state_ut : string) (lines : list string) :
  forall address district,
    (DataScrap.scan_lines state_ut lines address district).2
    = if truthy district then district
      else default ""
             (List.find truthy
                (map simple_district_of (List.filter names_district lines))).
Proof.
  induction lines as [|line rest IH]; intros address district; simpl.
  - by destruct district.
  - rewrite IH. unfold names_district. fold (simple_district_of line).
    destruct (truthy district) eqn:Hd; simpl; [by rewrite Hd|].
    destruct (contains "district" (lower line)); simpl; [|by rewrite Hd].
    destruct (String.length line <? 100)%nat; simpl; [|by rewrite Hd].
    by destruct (truthy (simple_district_of line)).
Qed.

(** X7.  Under the simple policy the District is the first value that is not
    empty among those made from the lines that hold the word "district"
    and are shorter than 100 characters: such a line that consists of
    the word alone is passed over. *)
Theorem simple_district_is_first_candidate_with_a_value
    (w : world) (text state_ut : string) :
  District (DataScrap.extract_info w text state_ut)
  = default ""
      (List.find truthy
         (map simple_district_of
            (List.filter names_district (text_lines text)))).
Proof.
  unfold DataScrap.extract_info.
  pose proof (simple_scan_district state_ut (text_lines text) "" "") as Hscan.
  destruct (DataScrap.scan_lines state_ut (text_lines text) "" "")
    as [address district].
  simpl in *. done.
Qed.

Lemma text_lines_nonempty (text line : string) :
  In line (text_lines text) -> exists c rest, line = String c rest.
Proof.
  unfold text_lines. intros [_ Htruthy]%filter_In.
  destruct line as [|c rest]; [done|by eexists _, _].
Qed.

(** X6.  Under the richer policy a text with a district keyword line gets its
    District from that line alone: the region hint and the address lines
    play no part, also when the line yields an empty District. *)
Theorem rich_district_of_keyword_line_ignores_region
    (w w' : world) (text state_ut state_ut' : string) (line : string)
    (Hline : In line (text_lines text))
    (Hkeyword : found DataAugmentation.district_keyword line = true) :
  District (DataAugmentation.extract_info w text state_ut)
  = District (DataAugmentation.extract_info w' text state_ut').
Proof.
  unfold DataAugmentation.extract_info.
  destruct (DataAugmentation.scan_addresses state_ut (text_lines text) "" [])
    as [address candidates].
  destruct (DataAugmentation.scan_addresses state_ut' (text_lines text) "" [])
    as [address' candidates'].
  simpl. unfold DataAugmentation.extract_district, DataAugmentation.district_line.
  destruct (List.find (found DataAugmentation.district_keyword) (text_lines text))
    as [first|] eqn:Hfind.
  - apply find_some in Hfind as [Hin _].
    destruct (text_lines_nonempty text first Hin) as (c & rest & ->). done.
  - by rewrite (find_none _ _ Hfind line Hline) in Hkeyword.
Qed.

Lemma rich_district_of_keyword_line_ignores_region_witness :
  District (DataAugmentation.extract_info offline district_text "Delhi")
  = District (DataAugmentation.extract_info phone_world district_text "").
Proof.
  apply (rich_district_of_keyword_line_ignores_region offline phone_world
           district_text "Delhi" ""
           "North Delhi District, Government of India");
    vm_compute; tauto.
Defined.
